(** * VeriMark AI: the browser client and the biometric encryption core

    The repository ships the React client (pages [Register] and [Decrypt],
    and the HTTP service module [services/api.js]).  The first part of this
    development embeds that JavaScript: values, truthiness, optional
    chaining, promises that fulfil or reject, and the component state that
    the event handlers update.  The second part models the encryption core
    that the client talks to. *)

From Stdlib Require Import ZArith Bool Lia.
From Stdlib Require Import Strings.String Strings.Byte.
From stdpp Require Import base option list gmap.

Local Open Scope string_scope.
Local Open Scope list_scope.

(** ** JavaScript values *)

(** The values that travel between axios, [api.js] and the pages.  An
    object keeps its properties in insertion order. *)
#[warnings="-register-all"]
Inductive JsVal : Type :=
  | JUndefined
  | JNull
  | JBool (b : bool)
  | JNum (z : Z)
  | JStr (s : string)
  | JArr (items : list JsVal)
  | JObj (props : list (string * JsVal)).

(** [ToBoolean]: what [!v], [v || w] and [v && w] test. *)
Definition truthy (v : JsVal) : bool :=
  match v with
  | JUndefined | JNull => false
  | JBool b => b
  | JNum z => negb (z =? 0)%Z
  | JStr s => negb (String.eqb s EmptyString)
  | JArr _ | JObj _ => true
  end.

(** [a || b] *)
Definition js_or (a b : JsVal) : JsVal := if truthy a then a else b.

Fixpoint lookup_prop (k : string) (props : list (string * JsVal)) : JsVal :=
  match props with
  | [] => JUndefined
  | (k', v) :: rest => if String.eqb k k' then v else lookup_prop k rest
  end.

(** A JavaScript evaluation either completes with a value or throws. *)
Inductive Completion (A : Type) : Type :=
  | Normal (a : A)
  | Throw (e : JsVal).
Arguments Normal {A} a.
Arguments Throw {A} e.

Definition TypeError : JsVal := JObj [("name", JStr "TypeError")].

(** [v.k]: reading a property of [undefined] or [null] throws; a missing
    property, or a property of a primitive, reads as [undefined]. *)
Definition prop (v : JsVal) (k : string) : Completion JsVal :=
  match v with
  | JUndefined | JNull => Throw TypeError
  | JObj props => Normal (lookup_prop k props)
  | _ => Normal JUndefined
  end.

(** [v?.k]: as [v.k], except that [undefined] and [null] give [undefined].
    (The keys read in this program are never own properties of a string or
    an array, so those read as [undefined] too.) *)
Definition prop_opt (v : JsVal) (k : string) : JsVal :=
  match v with
  | JObj props => lookup_prop k props
  | _ => JUndefined
  end.

Definition is_string (v : JsVal) : bool :=
  match v with JStr _ => true | _ => false end.

(** ** React children *)

(** What React accepts among the children of an element: [null],
    [undefined] and booleans draw nothing, a string or a number is drawn
    as text, an array is drawn item by item, and a plain object is
    refused. *)
Fixpoint valid_child (v : JsVal) : bool :=
  match v with
  | JObj _ => false
  | JArr items => forallb valid_child items
  | _ => true
  end.

(** The error of a render that was handed an object as a child
    ('Objects are not valid as a React child'). *)
Definition InvalidChild : JsVal := JObj [("name", JStr "Error")].

(** What stands in the place of a block that is drawn on a condition. *)
Inductive Shown (A : Type) : Type :=
  | Block (a : A)
  | Stray (text : JsVal)
  | Blank.
Arguments Block {A} a.
Arguments Stray {A} text.
Arguments Blank {A}.

(** [{v && rest}] among the children: [rest] when [v] is truthy;
    otherwise React is handed the falsy [v] itself, which it prints when
    it is the number 0 and skips when it is [null], [undefined], [false]
    or the empty string. *)
Definition child_and {A} (v : JsVal) (rest : Shown A) : Shown A :=
  if truthy v then rest
  else match v with JNum _ => Stray v | _ => Blank end.

(** ** Promises with a request log *)

(** A browser [File]: the client only ever passes these along. *)
Record File : Type := mkFile {
  file_name : string;
  file_type : string;
  file_bytes : list byte
}.

(** A [FormData] entry: [append] stores a [File] as it is and turns any
    other value into a string, so [null] becomes the text [null]. *)
Inductive FormValue : Type :=
  | FormFile (f : File)
  | FormText (s : string).

Definition form_value (f : option File) : FormValue :=
  match f with
  | Some x => FormFile x
  | None => FormText "null"
  end.

Definition FormData : Type := list (string * FormValue).

Inductive HttpMethod : Type := GET | POST.

Record Request : Type := mkRequest {
  req_method : HttpMethod;
  req_url : string;
  req_body : FormData
}.

(** How axios settles a request: it resolves with a response object or
    rejects with an error object.  Either is a JavaScript object, given
    here by its properties. *)
Inductive Settled : Type :=
  | Resolved (response : list (string * JsVal))
  | Rejected (error : list (string * JsVal)).

Definition Backend : Type := Request -> Settled.

(** An [async] computation: the requests it sent, and how it completed
    (a [Throw] is a rejected promise). *)
Definition Async (A : Type) : Type := list Request * Completion A.

Definition ret {A} (a : A) : Async A := ([], Normal a).

Definition bind {A B} (m : Async A) (k : A -> Async B) : Async B :=
  match m with
  | (log, Normal a) => let '(log', r) := k a in (log ++ log', r)
  | (log, Throw e) => (log, Throw e)
  end.

Definition lift {A} (c : Completion A) : Async A := ([], c).

(** [try { body } catch (error) { handler }] *)
Definition try_catch {A} (body : Async A) (handler : JsVal -> Async A) : Async A :=
  match body with
  | (log, Normal a) => (log, Normal a)
  | (log, Throw e) => let '(log', r) := handler e in (log ++ log', r)
  end.

Notation "'await' x ':=' m 'in' k" := (bind m (fun x => k))
  (at level 10, x name, m at level 100, k at level 200).

(** ** services/api.js *)

Module Api.

Section WithBackend.

Variable PROD : bool.
Variable backend : Backend.

Definition API_BASE_URL : string :=
  if PROD then "http://localhost:8000" else "/api".

(** [api.post(url, formData)]; the instance prefixes [baseURL]. *)
Definition post (url : string) (formData : FormData) : Async JsVal :=
  let req := mkRequest POST (API_BASE_URL ++ url) formData in
  match backend req with
  | Resolved response => ([req], Normal (JObj response))
  | Rejected error => ([req], Throw (JObj error))
  end.

(** [api.get(url)] *)
Definition get (url : string) : Async JsVal :=
  let req := mkRequest GET (API_BASE_URL ++ url) [] in
  match backend req with
  | Resolved response => ([req], Normal (JObj response))
  | Rejected error => ([req], Throw (JObj error))
  end.

(** [error.response?.data?.detail || error.message || fallback] *)
Definition error_text (error : JsVal) (fallback : string) : Completion JsVal :=
  match prop error "response" with
  | Throw e => Throw e
  | Normal response =>
      let detail := prop_opt (prop_opt response "data") "detail" in
      if truthy detail then Normal detail
      else
        match prop error "message" with
        | Throw e => Throw e
        | Normal message => Normal (js_or message (JStr fallback))
        end
  end.

Definition success_result (data : JsVal) : JsVal :=
  JObj [("success", JBool true); ("data", data)].

Definition failure_result (error : JsVal) : JsVal :=
  JObj [("success", JBool false); ("error", error)].

Definition registerFile (file iris fingerprint : option File) : Async JsVal :=
  let formData :=
    [("file", form_value file);
     ("iris", form_value iris);
     ("fingerprint", form_value fingerprint)] in
  try_catch
    (await response := post "/register" formData in
     await data := lift (prop response "data") in
     ret (success_result data))
    (fun error =>
       await text := lift (error_text error "Registration failed") in
       ret (failure_result text)).

Definition accessFile (encryptedFile iris fingerprint : option File) : Async JsVal :=
  let formData :=
    [("encrypted_file", form_value encryptedFile);
     ("iris", form_value iris);
     ("fingerprint", form_value fingerprint)] in
  try_catch
    (await response := post "/access" formData in
     await data := lift (prop response "data") in
     ret (success_result data))
    (fun error =>
       await text := lift (error_text error "Access denied") in
       ret (failure_result text)).

Definition checkHealth : Async JsVal :=
  try_catch
    (await response := get "/health" in
     await data := lift (prop response "data") in
     ret (success_result data))
    (fun _ => ret (failure_result (JStr "Backend is offline"))).

Definition getStats : Async JsVal :=
  try_catch
    (await response := get "/stats" in
     await data := lift (prop response "data") in
     ret (success_result data))
    (fun error =>
       await message := lift (prop error "message") in
       ret (failure_result message)).

(** [getDownloadUrl(filename)], for a string [filename]. *)
Definition getDownloadUrl (filename : string) : string :=
  API_BASE_URL ++ "/download/" ++ filename.

End WithBackend.

(** The [detail] that [error.response?.data?.detail] reads. *)
Definition detail_of (error : list (string * JsVal)) : JsVal :=
  prop_opt (prop_opt (lookup_prop "response" error) "data") "detail".

(** The value of [detail || message || fallback]. *)
Definition first_truthy (error : list (string * JsVal)) (fallback : string) : JsVal :=
  js_or (detail_of error) (js_or (lookup_prop "message" error) (JStr fallback)).

(** A result object with a boolean [success] and, when that is [false],
    a non-empty string under [error]. *)
Definition textual_result (v : JsVal) : Prop :=
  exists b, prop_opt v "success" = JBool b /\
    (b = false -> exists s, prop_opt v "error" = JStr s /\ s <> EmptyString).

(** A value that [||] passes over or that is a string. *)
Definition text_or_skipped (v : JsVal) : bool := is_string v || negb (truthy v).

(** What a call of [registerFile] or [accessFile] hands back when the
    server settles the request as [settled]. *)
Definition reported (fallback : string) (settled : Settled) (v : JsVal) : Prop :=
  match settled with
  | Resolved response => v = success_result (lookup_prop "data" response)
  | Rejected error => v = failure_result (first_truthy error fallback)
  end.

(** An [async] call that sends one request and fulfils with a result
    object: [success] is a boolean; on failure [error] is the first truthy
    value among the server's [detail], the error's [message] and the
    fallback, and it is a non-empty string when [detail] and [message]
    are each a string or skipped by [||]. *)
Definition settles (fallback : string) (backend : Backend) (outcome : Async JsVal)
  : Prop :=
  exists req v,
    outcome = ([req], Normal v) /\
    reported fallback (backend req) v /\
    (exists b, prop_opt v "success" = JBool b) /\
    (prop_opt v "success" = JBool false -> truthy (prop_opt v "error") = true) /\
    (forall error,
       backend req = Rejected error ->
       text_or_skipped (detail_of error) = true ->
       text_or_skipped (lookup_prop "message" error) = true ->
       exists s, prop_opt v "error" = JStr s /\ s <> EmptyString).

End Api.

(** ** pages/Register.jsx *)

Module RegisterPage.

(** The seven [useState] cells of the component. *)
Record State : Type := mkState {
  file : option File;
  iris : option File;
  fingerprint : option File;
  irisPreview : option string;
  fpPreview : option string;
  loading : bool;
  result : JsVal
}.

Definition initial : State := mkState None None None None None false JNull.

(** What a handler does, in program order: calls of the state setters,
    HTTP requests, and timers armed with a callback. *)
#[warnings="-register-all"]
Inductive Effect : Type :=
  | setFile (v : option File)
  | setIris (v : option File)
  | setFingerprint (v : option File)
  | setIrisPreview (v : option string)
  | setFpPreview (v : option string)
  | setLoading (v : bool)
  | setResult (v : JsVal)
  | request (r : Request)
  | setTimeout (callback : list Effect) (ms : Z).

Definition update (st : State) (e : Effect) : State :=
  match e with
  | setFile v =>
      mkState v (iris st) (fingerprint st) (irisPreview st) (fpPreview st) (loading st) (result st)
  | setIris v =>
      mkState (file st) v (fingerprint st) (irisPreview st) (fpPreview st) (loading st) (result st)
  | setFingerprint v =>
      mkState (file st) (iris st) v (irisPreview st) (fpPreview st) (loading st) (result st)
  | setIrisPreview v =>
      mkState (file st) (iris st) (fingerprint st) v (fpPreview st) (loading st) (result st)
  | setFpPreview v =>
      mkState (file st) (iris st) (fingerprint st) (irisPreview st) v (loading st) (result st)
  | setLoading v =>
      mkState (file st) (iris st) (fingerprint st) (irisPreview st) (fpPreview st) v (result st)
  | setResult v =>
      mkState (file st) (iris st) (fingerprint st) (irisPreview st) (fpPreview st) (loading st) v
  | request _ => st
  | setTimeout _ _ => st
  end.

(** The state once the setter calls of a handler have been applied. *)
Definition run (st : State) (effects : list Effect) : State :=
  fold_left update effects st.

Definition requests (effects : list Effect) : list Request :=
  flat_map (fun e => match e with request r => [r] | _ => [] end) effects.

(** [!file]: a [File] object is truthy, [null] is not. *)
Definition absent (f : option File) : bool :=
  match f with Some _ => false | None => true end.

Definition upload_all_files : JsVal :=
  JObj [("success", JBool false);
        ("error", JStr "Please upload all required files")].

Section WithBackend.

Variable PROD : bool.
Variable backend : Backend.

Definition handleRegister (st : State) : list Effect * Completion unit :=
  if absent (file st) || absent (iris st) || absent (fingerprint st) then
    ([setResult upload_all_files], Normal tt)
  else
    let starting := [setLoading true; setResult JNull] in
    match Api.registerFile PROD backend (file st) (iris st) (fingerprint st) with
    | (sent, Throw e) => (starting ++ map request sent, Throw e)
    | (sent, Normal response) =>
        let finished :=
          starting ++ map request sent ++ [setLoading false; setResult response] in
        match prop response "success" with
        | Throw e => (finished, Throw e)
        | Normal success =>
            if truthy success then
              (finished ++
                 [setTimeout
                    [setFile None; setIris None; setFingerprint None;
                     setIrisPreview None; setFpPreview None] 3000],
               Normal tt)
            else (finished, Normal tt)
        end
    end.

End WithBackend.

Definition handleClear : list Effect :=
  [setFile None; setIris None; setFingerprint None;
   setIrisPreview None; setFpPreview None; setResult JNull].

(** The state a handler leaves, and what it sent, when a required input
    is missing on the Register page. *)
Definition refused (st : State)
    (ran : list Effect * Completion unit) : Prop :=
  ran = ([setResult upload_all_files], Normal tt) /\
  requests ran.1 = [] /\
  loading (run st ran.1) = loading st /\
  (loading st = false -> loading (run st ran.1) = false) /\
  prop_opt (result (run st ran.1)) "success" = JBool false /\
  prop_opt (result (run st ran.1)) "error"
    = JStr "Please upload all required files".

End RegisterPage.

(** ** pages/Decrypt.jsx *)

Module DecryptPage.

Record State : Type := mkState {
  encryptedFile : option File;
  iris : option File;
  fingerprint : option File;
  irisPreview : option string;
  fpPreview : option string;
  loading : bool;
  result : JsVal
}.

Definition initial : State := mkState None None None None None false JNull.

Inductive Effect : Type :=
  | setEncryptedFile (v : option File)
  | setIris (v : option File)
  | setFingerprint (v : option File)
  | setIrisPreview (v : option string)
  | setFpPreview (v : option string)
  | setLoading (v : bool)
  | setResult (v : JsVal)
  | request (r : Request).

Definition update (st : State) (e : Effect) : State :=
  match e with
  | setEncryptedFile v =>
      mkState v (iris st) (fingerprint st) (irisPreview st) (fpPreview st) (loading st) (result st)
  | setIris v =>
      mkState (encryptedFile st) v (fingerprint st) (irisPreview st) (fpPreview st) (loading st) (result st)
  | setFingerprint v =>
      mkState (encryptedFile st) (iris st) v (irisPreview st) (fpPreview st) (loading st) (result st)
  | setIrisPreview v =>
      mkState (encryptedFile st) (iris st) (fingerprint st) v (fpPreview st) (loading st) (result st)
  | setFpPreview v =>
      mkState (encryptedFile st) (iris st) (fingerprint st) (irisPreview st) v (loading st) (result st)
  | setLoading v =>
      mkState (encryptedFile st) (iris st) (fingerprint st) (irisPreview st) (fpPreview st) v (result st)
  | setResult v =>
      mkState (encryptedFile st) (iris st) (fingerprint st) (irisPreview st) (fpPreview st) (loading st) v
  | request _ => st
  end.

Definition run (st : State) (effects : list Effect) : State :=
  fold_left update effects st.

Definition requests (effects : list Effect) : list Request :=
  flat_map (fun e => match e with request r => [r] | _ => [] end) effects.

Definition absent (f : option File) : bool :=
  match f with Some _ => false | None => true end.

Definition upload_all_files : JsVal :=
  JObj [("success", JBool false);
        ("error", JStr "Please upload all required files")].

Section WithBackend.

Variable PROD : bool.
Variable backend : Backend.

Definition handleDecrypt (st : State) : list Effect * Completion unit :=
  if absent (encryptedFile st) || absent (iris st) || absent (fingerprint st) then
    ([setResult upload_all_files], Normal tt)
  else
    let starting := [setLoading true; setResult JNull] in
    match Api.accessFile PROD backend (encryptedFile st) (iris st) (fingerprint st) with
    | (sent, Throw e) => (starting ++ map request sent, Throw e)
    | (sent, Normal response) =>
        (starting ++ map request sent ++ [setLoading false; setResult response],
         Normal tt)
    end.

End WithBackend.

Definition handleNewDecryption : list Effect :=
  [setEncryptedFile None; setIris None; setFingerprint None;
   setIrisPreview None; setFpPreview None; setResult JNull].

(** The result card of the page: its CSS modifier, title and message,
    the value handed to [getDownloadUrl] for the download link, and the
    value drawn in the preview. *)
Record Card : Type := mkCard {
  card_class : string;
  card_title : string;
  card_message : JsVal;
  card_download : Shown JsVal;
  card_preview : Shown JsVal
}.

(** [{result && ( ... )}], as React draws it.  The expressions of the
    card are evaluated first, and reading [result.data.message] throws
    when [result.data] is [null] or missing.  React then refuses the
    render when the message, or the [file_content] it is to draw, is an
    object or holds one; [decrypted_file] only goes into the link. *)
Definition resultCard (result : JsVal) : Completion (Shown Card) :=
  if truthy result then
    match prop result "success" with
    | Throw e => Throw e
    | Normal success =>
        if truthy success then
          match prop result "data" with
          | Throw e => Throw e
          | Normal data =>
              match prop data "message",
                    prop data "decrypted_file",
                    prop data "file_content" with
              | Normal message, Normal decrypted_file, Normal file_content =>
                  if valid_child message && valid_child file_content then
                    Normal (Block (mkCard "success" "Access Granted!" message
                      (child_and decrypted_file (Block decrypted_file))
                      (child_and file_content (Block file_content))))
                  else Throw InvalidChild
              | Throw e, _, _ => Throw e
              | _, Throw e, _ => Throw e
              | _, _, Throw e => Throw e
              end
          end
        else
          match prop result "error" with
          | Throw e => Throw e
          | Normal error =>
              if valid_child error then
                Normal (Block (mkCard "error" "Access Denied" error
                  (child_and success Blank) (child_and success Blank)))
              else Throw InvalidChild
          end
    end
  else Normal (child_and result Blank).

(** The state a handler leaves, and what it sent, when a required input
    is missing on the Decrypt page. *)
Definition refused (st : State)
    (ran : list Effect * Completion unit) : Prop :=
  ran = ([setResult upload_all_files], Normal tt) /\
  requests ran.1 = [] /\
  loading (run st ran.1) = loading st /\
  (loading st = false -> loading (run st ran.1) = false) /\
  prop_opt (result (run st ran.1)) "success" = JBool false /\
  prop_opt (result (run st ran.1)) "error"
    = JStr "Please upload all required files".

End DecryptPage.

(** * The encryption core

    The server side that answers [/register] and [/access] is not among
    the sources.  It is modelled here from the written specification: the
    error kinds, the container, the attempt limiter and the order in which
    [Register] and [Access] run their stages.  The extractor, the
    validator, the key derivation and the authenticated cipher stay
    abstract: an implementation supplies them together with the two laws
    of the cipher that the specification demands. *)

Module Core.

(** Modelled from the spec: the declared modality of a biometric sample
    (section 3, BiometricSample). *)
Inductive Modality : Type := IrisModality | FingerprintModality.

(** Modelled from the spec: the error kinds of section 7. *)
Inductive Error : Type :=
  | InvalidImage
  | InvalidBiometric
  | AccessDenied
  | RateLimited (retryAfter : Z)
  | CorruptContainer.

(** Modelled from the spec: the identity key of an attempt record, a
    one-way hash, kept as a number. *)
Definition Identity : Type := N.

(** Modelled from the spec: the non-secret metadata of a container. *)
Record Metadata : Type := mkMetadata {
  original_size : nat
}.

(** Modelled from the spec: the persisted container of section 3, over
    the nonce and tag types of the cipher in use. *)
Record EncryptedContainer (Nonce Tag : Type) : Type := mkContainer {
  version : N;
  nonce : Nonce;
  tag : Tag;
  ciphertext : list byte;
  metadata : Metadata
}.
Arguments mkContainer {Nonce Tag}.
Arguments version {Nonce Tag}.
Arguments nonce {Nonce Tag}.
Arguments tag {Nonce Tag}.
Arguments ciphertext {Nonce Tag}.
Arguments metadata {Nonce Tag}.

(** Modelled from the spec: the pluggable components of section 4 that
    are absent from the sources (Feature Extractor, Authenticity
    Validator, Key Derivation Function, Watermark Generator and the
    authenticated cipher under the Encryption Engine), each with the
    signature of its contract.  [extract] gives [None] for [InvalidImage];
    [policy] combines the two verdicts, which the specification leaves to
    the implementer; [identityKey] may hash the descriptors or the
    container; [render] gives [None] when the watermark fails.  The
    two laws are the contract of section 4.4: decryption under the
    sealing key returns the plaintext, and a wrong key is detected. *)
Class Components : Type := {
  Descriptor : Type;
  AuthenticityScore : Type;
  DerivedKey : Type;
  Nonce : Type;
  Tag : Type;
  DerivedKey_eq_dec :: EqDecision DerivedKey;
  extract : list byte -> Modality -> option Descriptor;
  validate : Descriptor -> Modality -> AuthenticityScore;
  accept : AuthenticityScore -> bool;
  policy : bool -> bool -> bool;
  derive : Descriptor -> Descriptor -> DerivedKey;
  identityKey : Descriptor -> Descriptor -> EncryptedContainer Nonce Tag -> Identity;
  render : Descriptor -> Descriptor -> option (list byte);
  seal : DerivedKey -> Nonce -> Metadata -> list byte -> list byte * Tag;
  open : DerivedKey -> Nonce -> Metadata -> list byte -> Tag -> option (list byte);
  open_seal : forall key nonce meta plaintext,
    open key nonce meta (seal key nonce meta plaintext).1
                        (seal key nonce meta plaintext).2 = Some plaintext;
  open_wrong_key : forall key key' nonce meta plaintext,
    key' <> key ->
    open key' nonce meta (seal key nonce meta plaintext).1
                         (seal key nonce meta plaintext).2 = None
}.

(** Modelled from the spec: the configuration of the Attempt Limiter. *)
Record LimiterConfig : Type := mkConfig {
  threshold : nat;
  cooldown : N
}.

(** Modelled from the spec: the attempt record of section 3. *)
Record AttemptRecord : Type := mkRecord {
  failure_count : nat;
  first_failure : Z;
  lockout_until : option Z
}.

(** Modelled from the spec: the states of the limiter (section 4.6). *)
Inductive LimiterState : Type :=
  | Clean
  | Warned (n : nat)
  | Locked (until : Z).

(** Modelled from the spec: the state an identity is in at time [now].
    A lockout that [now] has passed counts as [Clean].  The eviction of a
    stale record that is not locked (section 3) is left out: no time
    window is read here. *)
Definition state_of (now : Z) (r : option AttemptRecord) : LimiterState :=
  match r with
  | None => Clean
  | Some rec =>
      match lockout_until rec with
      | Some T => if (now <=? T)%Z then Locked T else Clean
      | None =>
          match failure_count rec with
          | O => Clean
          | S n => Warned (S n)
          end
      end
  end.

(** Modelled from the spec: [checkAllowed], absent from the sources. *)
Definition checkAllowed (store : gmap N AttemptRecord) (id : Identity) (now : Z)
  : option Error :=
  match state_of now (store !! id) with
  | Locked T => Some (RateLimited (T - now))
  | _ => None
  end.

(** Modelled from the spec: [recordFailure], absent from the sources.
    The count goes up by one; once it exceeds the threshold the record
    is locked for the cooldown. *)
Definition recordFailure (cfg : LimiterConfig) (store : gmap N AttemptRecord)
    (id : Identity) (now : Z) : gmap N AttemptRecord :=
  match state_of now (store !! id) with
  | Locked _ => store
  | Clean =>
      <[id := mkRecord 1 now
                (if (threshold cfg <? 1)%nat then Some (now + Z.of_N (cooldown cfg))%Z
                 else None)]> store
  | Warned n =>
      <[id := mkRecord (S n)
                (match store !! id with Some r => first_failure r | None => now end)
                (if (threshold cfg <? S n)%nat then Some (now + Z.of_N (cooldown cfg))%Z
                 else None)]> store
  end.

(** Modelled from the spec: [recordSuccess], absent from the sources. *)
Definition recordSuccess (store : gmap N AttemptRecord) (id : Identity)
  : gmap N AttemptRecord :=
  delete id store.

(** Modelled from the spec: how the server words an error for the
    client (section 7).  A validator rejection and a key mismatch share
    the generic message; the wording of the other kinds is not fixed. *)
Definition presented (wording : Error -> string) (e : Error) : string :=
  match e with
  | InvalidBiometric | AccessDenied => "access denied"
  | _ => wording e
  end.

(** Modelled from the spec: the answer of the API layer that stands in
    front of [Access] (absent from the sources), as axios hands it to the
    client.  A refusal carries the wording of the error under [detail],
    where the client reads it; its HTTP status and the message of the
    axios error are the layer's own choice for each error kind.  A grant
    carries the body that the layer builds from the plaintext. *)
Definition respond (wording : Error -> string) (status : Error -> Z)
    (message : Error -> string) (granted : list byte -> JsVal)
    (outcome : Error + list byte) : Settled :=
  match outcome with
  | inl e =>
      Rejected
        [("message", JStr (message e));
         ("response",
          JObj [("status", JNum (status e));
                ("data", JObj [("detail", JStr (presented wording e))])])]
  | inr plaintext => Resolved [("status", JNum 200); ("data", granted plaintext)]
  end.

Section Pipeline.

Context `{Components}.
Variable cfg : LimiterConfig.

(** Modelled from the spec: the one container format this engine
    writes and reads (section 4.4). *)
Definition FORMAT_VERSION : N := 1.

(** Modelled from the spec: [encrypt] of the Encryption Engine. *)
Definition encrypt (plaintext : list byte) (key : DerivedKey) (fresh : Nonce)
  : EncryptedContainer Nonce Tag :=
  let meta := mkMetadata (length plaintext) in
  let sealed := seal key fresh meta plaintext in
  mkContainer FORMAT_VERSION fresh sealed.2 sealed.1 meta.

(** Modelled from the spec: [decrypt] of the Encryption Engine. *)
Definition decrypt (container : EncryptedContainer Nonce Tag) (key : DerivedKey)
  : Error + list byte :=
  if (version container =? FORMAT_VERSION)%N then
    match open key (nonce container) (metadata container)
               (ciphertext container) (tag container) with
    | Some plaintext => inr plaintext
    | None => inl AccessDenied
    end
  else inl CorruptContainer.

(** Modelled from the spec: the verdict of the validator on a pair. *)
Definition genuine (di df : Descriptor) : bool :=
  policy (accept (validate di IrisModality))
         (accept (validate df FingerprintModality)).

(** Modelled from the spec: [Register] (sections 2 and 6).  The fresh
    nonce is an input. *)
Definition Register (fileBytes irisImage fingerprintImage : list byte)
    (fresh : Nonce)
  : Error + (EncryptedContainer Nonce Tag * option (list byte)) :=
  match extract irisImage IrisModality,
        extract fingerprintImage FingerprintModality with
  | Some di, Some df =>
      if genuine di df then
        inr (encrypt fileBytes (derive di df) fresh, render di df)
      else inl InvalidBiometric
  | _, _ => inl InvalidImage
  end.

(** Modelled from the spec: the identity an attempt is booked under,
    when both images can be read. *)
Definition attempt_identity (container : EncryptedContainer Nonce Tag)
    (irisImage fingerprintImage : list byte) : option Identity :=
  match extract irisImage IrisModality,
        extract fingerprintImage FingerprintModality with
  | Some di, Some df => Some (identityKey di df container)
  | _, _ => None
  end.

(** Modelled from the spec: [Access] (sections 2, 4.6, 6 and 7).  The
    limiter is asked before validation and decryption, and while the
    identity is locked the attempt is refused and nothing changes.  An
    unreadable image has no effect on the attempt records; a validator
    rejection, a failed decryption and a malformed container are recorded
    as failed attempts. *)
Definition Access (store : gmap N AttemptRecord) (now : Z)
    (container : EncryptedContainer Nonce Tag)
    (irisImage fingerprintImage : list byte)
  : (Error + list byte) * gmap N AttemptRecord :=
  match extract irisImage IrisModality,
        extract fingerprintImage FingerprintModality with
  | Some di, Some df =>
      let id := identityKey di df container in
      match checkAllowed store id now with
      | Some limited => (inl limited, store)
      | None =>
          if genuine di df then
            match decrypt container (derive di df) with
            | inr plaintext => (inr plaintext, recordSuccess store id)
            | inl e => (inl e, recordFailure cfg store id now)
            end
          else (inl InvalidBiometric, recordFailure cfg store id now)
      end
  | _, _ => (inl InvalidImage, store)
  end.

End Pipeline.

End Core.

(** ** A stand-in implementation of the components

    Small executable components that meet the contract of [Components].
    They show that the contract can be met and let the scenarios of the
    specification be run; the cipher keeps nothing secret. *)

Module Demo.

Import Core.

Definition MIN_IMAGE_BYTES : nat := 4.

(** The descriptor keeps the high nibble of every byte of the image. *)
Definition demo_extract (image : list byte) (m : Modality) : option (list N) :=
  if (length image <? MIN_IMAGE_BYTES)%nat then None
  else Some (map (fun b => (Byte.to_N b / 16)%N) image).

(** The score counts the cells that are not blank. *)
Definition demo_validate (d : list N) (m : Modality) : N :=
  N.of_nat (length (filter (fun x => negb (x =? 0)%N) d)).

Definition demo_accept (score : N) : bool := (2 <=? score)%N.

Definition mix (acc x : N) : N := ((acc * 31 + x + 1) mod 4294967296)%N.

Definition demo_derive (di df : list N) : N :=
  fold_left mix (di ++ 16%N :: df) 7%N.

Definition demo_identity (di df : list N)
    (c : EncryptedContainer N (N * N * nat)) : N :=
  fold_left mix (df ++ 17%N :: di) 11%N.

Definition demo_render (di df : list N) : option (list byte) :=
  Some (map (fun x => match Byte.of_N x with Some b => b | None => x00 end) (di ++ df)).

(** The tag names the key, the nonce and the declared size; the
    ciphertext is the plaintext backwards. *)
Definition demo_seal (key nonce : N) (meta : Metadata) (plaintext : list byte)
  : list byte * (N * N * nat) :=
  (rev plaintext, (key, nonce, original_size meta)).

Definition demo_open (key nonce : N) (meta : Metadata) (ct : list byte)
    (t : N * N * nat) : option (list byte) :=
  if (t.1.1 =? key)%N && (t.1.2 =? nonce)%N && (t.2 =? original_size meta)%nat
  then Some (rev ct) else None.

#[export, refine] Instance demo : Components := {|
  Descriptor := list N;
  AuthenticityScore := N;
  DerivedKey := N;
  Nonce := N;
  Tag := N * N * nat;
  extract := demo_extract;
  validate := demo_validate;
  accept := demo_accept;
  policy := andb;
  derive := demo_derive;
  identityKey := demo_identity;
  render := demo_render;
  seal := demo_seal;
  open := demo_open
|}.
Proof.
  - intros key nonce meta plaintext. unfold demo_open, demo_seal. simpl.
    rewrite !N.eqb_refl, Nat.eqb_refl. simpl. by rewrite rev_involutive.
  - intros key key' nonce meta plaintext Hne. unfold demo_open, demo_seal. simpl.
    destruct (N.eqb_spec key key') as [->|_]; [congruence | done].
Defined.

Definition demo_config : LimiterConfig := mkConfig 2 60.

(** The scenario of section 8 of the specification. *)
Definition hello_world : list byte := list_byte_of_string "hello world".
Definition I1 : list byte := list_byte_of_string "iris of the first subject".
Definition F1 : list byte := list_byte_of_string "finger of the first subject".
Definition F2 : list byte := list_byte_of_string "a different finger".

(** An image that can be read and shows nothing: every cell of its
    descriptor is blank, so the validator rejects it. *)
Definition blank : list byte := ["001"%byte; "002"%byte; "003"%byte; "004"%byte].

(** The body of a grant: a message, the name under which the plaintext
    was stored, and the plaintext as text. *)
Definition demo_granted (plaintext : list byte) : JsVal :=
  JObj [("message", JStr "File decrypted");
        ("decrypted_file", JStr "hello.txt");
        ("file_content", JStr (string_of_list_byte plaintext))].

(** Status and message of a refusal: 403 for a key mismatch, 400 for
    everything else. *)
Definition demo_status (e : Error) : Z :=
  match e with AccessDenied => 403 | _ => 400 end.

Definition demo_message (e : Error) : string :=
  match e with
  | AccessDenied => "Request failed with status code 403"
  | _ => "Request failed with status code 400"
  end.

Definition demo_wording (e : Error) : string :=
  match e with
  | InvalidImage => "invalid image"
  | RateLimited _ => "too many attempts"
  | CorruptContainer => "corrupt container"
  | _ => "denied"
  end.

(** The container that registering [hello_world] with the first iris and
    the first finger under nonce 5 gives. *)
Definition hello_container : EncryptedContainer N (N * N * nat) :=
  encrypt hello_world
    (demo_derive (default [] (demo_extract I1 IrisModality))
                 (default [] (demo_extract F1 FingerprintModality))) 5%N.

(** A container that the first iris and the other finger registered. *)
Definition foreign_container : EncryptedContainer N (N * N * nat) :=
  encrypt (list_byte_of_string "something else")
    (demo_derive (default [] (demo_extract I1 IrisModality))
                 (default [] (demo_extract F2 FingerprintModality))) 9%N.

(** The store after three attempts on it with the first finger, at times
    0, 1 and 2. *)
Definition after_three_failures : gmap N AttemptRecord :=
  (Access demo_config
     (Access demo_config
        (Access demo_config ∅ 0 foreign_container I1 F1).2
        1 foreign_container I1 F1).2
     2 foreign_container I1 F1).2.

End Demo.

(** ** Sample servers and uploads *)

Module Samples.

Definition sample_document : File :=
  mkFile "report.enc" "application/octet-stream" ["001"%byte; "002"%byte].

Definition sample_image : File :=
  mkFile "eye.png" "image/png" ["137"%byte; "P"%byte; "N"%byte; "G"%byte].

(** A server that answers every request with a validation error whose
    [detail] is a list, as frameworks do for a malformed form. *)
Definition validation_error : Backend := fun _ =>
  Rejected
    [("message", JStr "Request failed with status code 422");
     ("response",
      JObj [("status", JNum 422);
            ("data",
             JObj [("detail",
                    JArr [JObj [("loc", JArr [JStr "body"; JStr "iris"]);
                                ("msg", JStr "field required")]])])])].

(** A server that accepts every upload. *)
Definition accepting : Backend := fun _ =>
  Resolved
    [("status", JNum 200);
     ("data",
      JObj [("message", JStr "File encrypted");
            ("encrypted_file", JStr "report.enc")])].

Definition ready_to_register : RegisterPage.State :=
  RegisterPage.mkState (Some sample_document) (Some sample_image)
    (Some sample_image) None None false JNull.

(** A server that cannot be reached. *)
Definition network_down : Backend := fun _ =>
  Rejected [("message", JStr "Network Error")].

(** A server whose answer is the JSON text [null]. *)
Definition answering_null : Backend := fun _ =>
  Resolved [("status", JNum 200); ("data", JNull)].

Definition ready_to_decrypt : DecryptPage.State :=
  DecryptPage.mkState (Some sample_document) (Some sample_image)
    (Some sample_image) None None false JNull.

End Samples.

(** * The rest of the client

    The handlers, views and components of the sources that stand beside
    the ones above: choosing and dropping files, the buttons, the result
    card of the Register page, the upload box and the Home page. *)

From Stdlib Require Import Ascii DecimalString.

(** ** Choosing a file (pages/Register.jsx and pages/Decrypt.jsx) *)

Module FileInput.

Section WithReader.

(** [FileReader.readAsDataURL]: the data URL handed to [onload], or
    [None] when the read fails and [onload] never fires. *)
Variable readAsDataURL : File -> option string.

Context {Effect : Type}.

(** [handleFileChange(e, setter, previewSetter)], the same function on
    both pages, given [e.target.files].  The first list holds the calls
    made at once, the second the call that [reader.onload] makes later. *)
Definition handleFileChange (files : list File) (setter : File -> Effect)
    (previewSetter : option (string -> Effect)) : list Effect * list Effect :=
  match files with
  | [] => ([], [])
  | selectedFile :: _ =>
      ([setter selectedFile],
       match previewSetter with
       | Some setPreview =>
           if String.prefix "image/" (file_type selectedFile) then
             match readAsDataURL selectedFile with
             | Some url => [setPreview url]
             | None => []
             end
           else []
       | None => []
       end)
  end.

End WithReader.

End FileInput.

(** ** The rest of pages/Register.jsx *)

Module RegisterForm.

Import RegisterPage.

Section WithReader.

Variable readAsDataURL : File -> option string.

(** [onChange={(e) => handleFileChange(e, setFile, null)}] *)
Definition onFileChange (files : list File) : list Effect * list Effect :=
  FileInput.handleFileChange readAsDataURL files (fun f => setFile (Some f)) None.

(** [onChange={(e) => handleFileChange(e, setIris, setIrisPreview)}] *)
Definition onIrisChange (files : list File) : list Effect * list Effect :=
  FileInput.handleFileChange readAsDataURL files (fun f => setIris (Some f))
    (Some (fun url => setIrisPreview (Some url))).

(** [onChange={(e) => handleFileChange(e, setFingerprint, setFpPreview)}] *)
Definition onFingerprintChange (files : list File) : list Effect * list Effect :=
  FileInput.handleFileChange readAsDataURL files (fun f => setFingerprint (Some f))
    (Some (fun url => setFpPreview (Some url))).

End WithReader.

(** The state after the calls made at once and the later call of
    [onload] have both been applied. *)
Definition settle (st : State) (changes : list Effect * list Effect) : State :=
  run (run st changes.1) changes.2.

(** [disabled={loading || (!file && !iris && !fingerprint)}] of the Clear
    button. *)
Definition clearDisabled (st : State) : bool :=
  loading st || (absent (file st) && absent (iris st) && absent (fingerprint st)).

(** [disabled={loading || !file || !iris || !fingerprint}] of the
    Register button. *)
Definition submitDisabled (st : State) : bool :=
  loading st || absent (file st) || absent (iris st) || absent (fingerprint st).

(** The timers a handler armed: callback and delay. *)
Definition timers (effects : list Effect) : list (list Effect * Z) :=
  flat_map (fun e => match e with setTimeout callback ms => [(callback, ms)] | _ => [] end)
    effects.

(** The five calls that the timer of [handleRegister] makes when it
    fires. *)
Definition clear_inputs : list Effect :=
  [setFile None; setIris None; setFingerprint None;
   setIrisPreview None; setFpPreview None].

(** The result card of the Register page: its CSS modifier, title and
    message, and the name shown as the encrypted file. *)
Record Card : Type := mkCard {
  card_class : string;
  card_title : string;
  card_message : JsVal;
  card_encrypted_file : Shown JsVal
}.

(** [{result && ( ... )}] of the Register page, as React draws it.
    Reading [result.data.message] throws when [result.data] is [null] or
    missing; React then refuses the render when the message, or the
    [encrypted_file] it is to draw, is an object or holds one. *)
Definition resultCard (result : JsVal) : Completion (Shown Card) :=
  if truthy result then
    match prop result "success" with
    | Throw e => Throw e
    | Normal success =>
        if truthy success then
          match prop result "data" with
          | Throw e => Throw e
          | Normal data =>
              match prop data "message", prop data "encrypted_file" with
              | Normal message, Normal encrypted_file =>
                  if valid_child message && valid_child encrypted_file then
                    Normal (Block (mkCard "success" "Success!" message
                      (child_and encrypted_file (Block encrypted_file))))
                  else Throw InvalidChild
              | Throw e, _ => Throw e
              | _, Throw e => Throw e
              end
          end
        else
          match prop result "error" with
          | Throw e => Throw e
          | Normal error =>
              if valid_child error then
                Normal (Block (mkCard "error" "Error" error (child_and success Blank)))
              else Throw InvalidChild
          end
    end
  else Normal (child_and result Blank).

End RegisterForm.

(** ** The rest of pages/Decrypt.jsx *)

Module DecryptForm.

Import DecryptPage.

Section WithReader.

Variable readAsDataURL : File -> option string.

(** [onChange={(e) => handleFileChange(e, setEncryptedFile, null)}] *)
Definition onEncryptedFileChange (files : list File) : list Effect * list Effect :=
  FileInput.handleFileChange readAsDataURL files (fun f => setEncryptedFile (Some f)) None.

(** [onChange={(e) => handleFileChange(e, setIris, setIrisPreview)}] *)
Definition onIrisChange (files : list File) : list Effect * list Effect :=
  FileInput.handleFileChange readAsDataURL files (fun f => setIris (Some f))
    (Some (fun url => setIrisPreview (Some url))).

(** [onChange={(e) => handleFileChange(e, setFingerprint, setFpPreview)}] *)
Definition onFingerprintChange (files : list File) : list Effect * list Effect :=
  FileInput.handleFileChange readAsDataURL files (fun f => setFingerprint (Some f))
    (Some (fun url => setFpPreview (Some url))).

End WithReader.

Definition settle (st : State) (changes : list Effect * list Effect) : State :=
  run (run st changes.1) changes.2.

(** [disabled={loading || (!encryptedFile && !iris && !fingerprint)}] of
    the Clear button. *)
Definition clearDisabled (st : State) : bool :=
  loading st ||
  (absent (encryptedFile st) && absent (iris st) && absent (fingerprint st)).

(** [disabled={loading || !encryptedFile || !iris || !fingerprint}] of the
    Decrypt button. *)
Definition submitDisabled (st : State) : bool :=
  loading st || absent (encryptedFile st) || absent (iris st)
  || absent (fingerprint st).

End DecryptForm.

(** ** components/FileUpload.jsx *)

Module FileUploadBox.

(** What the handlers of the box do: [e.preventDefault()], the setter of
    its own [dragOver] cell, and the [onChange] of the parent, called with
    an event whose [target.files] is the given list. *)
Inductive Effect : Type :=
  | preventDefault
  | setDragOver (v : bool)
  | onChange (files : list File).

Definition handleDragOver : list Effect := [preventDefault; setDragOver true].

Definition handleDragLeave : list Effect := [preventDefault; setDragOver false].

(** [handleDrop(e)], given [e.dataTransfer.files] ([None] when it is
    missing): the parent is called only when there is a first file. *)
Definition handleDrop (files : option (list File)) : list Effect :=
  [preventDefault; setDragOver false] ++
  match files with
  | Some (first :: rest) => [onChange (first :: rest)]
  | _ => []
  end.

(** [handleFileChange(e)], given [e.target.files]. *)
Definition handleFileChange (files : list File) : list Effect := [onChange files].

(** The value of [dragOver] once the setter calls have been applied. *)
Definition dragOver_after (dragOver : bool) (effects : list Effect) : bool :=
  fold_left (fun d e => match e with setDragOver v => v | _ => d end) effects dragOver.

(** The calls of the parent's [onChange], in order. *)
Definition changes (effects : list Effect) : list (list File) :=
  flat_map (fun e => match e with onChange files => [files] | _ => [] end) effects.

(** The characters that [\s] matches, among the ASCII ones: tab, line
    feed, vertical tab, form feed, carriage return and space. *)
Definition is_space (c : ascii) : bool :=
  let n := N_of_ascii c in ((9 <=? n) && (n <=? 13) || (n =? 32))%N.

Definition is_upper (c : ascii) : bool :=
  let n := N_of_ascii c in ((65 <=? n) && (n <=? 90))%N.

(** [s.replace(/\s+/g, '-')]: every maximal run of white space becomes
    one hyphen.  [in_run] tells that the character before was white
    space. *)
Fixpoint replace_spaces (in_run : bool) (s : string) : string :=
  match s with
  | EmptyString => EmptyString
  | String c rest =>
      if is_space c then
        if in_run then replace_spaces true rest
        else String "-"%char (replace_spaces true rest)
      else String c (replace_spaces false rest)
  end.

(** [s.toLowerCase()] on ASCII text. *)
Fixpoint toLowerCase (s : string) : string :=
  match s with
  | EmptyString => EmptyString
  | String c rest =>
      String (if is_upper c then ascii_of_N (N_of_ascii c + 32) else c)
             (toLowerCase rest)
  end.

(** [`file-upload-${label.replace(/\s+/g, '-').toLowerCase()}`], for a
    label of ASCII characters (the labels of the pages are). *)
Definition inputId (label : string) : string :=
  "file-upload-" ++ toLowerCase (replace_spaces false label).

(** Every character of [s] passes the test. *)
Fixpoint all_chars (test : ascii -> bool) (s : string) : bool :=
  match s with
  | EmptyString => true
  | String c rest => test c && all_chars test rest
  end.

(** A character that is neither white space nor an upper-case letter. *)
Definition plain_char (c : ascii) : bool := negb (is_space c) && negb (is_upper c).

(** The label is ASCII text. *)
Fixpoint ascii_only (s : string) : bool :=
  match s with
  | EmptyString => true
  | String c rest => (N_of_ascii c <? 128)%N && ascii_only rest
  end.

(** [(size / 1024).toFixed(2)] counts in hundredths of a KB: the nearest
    integer to [100 * size / 1024], the larger one on a tie.  The division
    by 1024 is exact for every size a [File] can have (below 2^53). *)
Definition kb_hundredths (size : N) : N := ((size * 100 + 512) / 1024)%N.

(** The digits [toFixed(2)] prints for that many hundredths. *)
Definition toFixed2 (hundredths : N) : string :=
  NilZero.string_of_uint (N.to_uint (hundredths / 100)) ++ "." ++
  NilZero.string_of_uint (N.to_uint ((hundredths mod 100) / 10)) ++
  NilZero.string_of_uint (N.to_uint (hundredths mod 10)).

Definition file_size (f : File) : N := N.of_nat (length (file_bytes f)).

(** What the box shows: the preview image, or the name and size of the
    file, or the invitation to upload. *)
Inductive Content : Type :=
  | ShowsPreview (src : string)
  | ShowsFile (name : string) (size_text : string)
  | ShowsEmpty (label : string).

(** [preview ? ... : file ? ... : ...], with the [preview] and [file]
    props as the pages pass them. *)
Definition content (label : string) (file : option File) (preview : option string)
  : Content :=
  match preview with
  | Some src =>
      if negb (String.eqb src EmptyString) then ShowsPreview src
      else
        match file with
        | Some f => ShowsFile (file_name f) (toFixed2 (kb_hundredths (file_size f)) ++ " KB")
        | None => ShowsEmpty label
        end
  | None =>
      match file with
      | Some f => ShowsFile (file_name f) (toFixed2 (kb_hundredths (file_size f)) ++ " KB")
      | None => ShowsEmpty label
      end
  end.

End FileUploadBox.

(** ** The upload boxes as the pages wire them *)

Module UploadWiring.

(** The page state after the box has made its calls of [onChange], each
    one handled by the page's handler for that slot and settled. *)
Definition deliverDecrypt
    (handler : list File -> list DecryptPage.Effect * list DecryptPage.Effect)
    (st : DecryptPage.State) (box : list FileUploadBox.Effect) : DecryptPage.State :=
  fold_left (fun s files => DecryptForm.settle s (handler files))
    (FileUploadBox.changes box) st.

End UploadWiring.

(** ** pages/Home.jsx *)

Module HomePage.

Record State : Type := mkState {
  backendStatus : JsVal
}.

Definition initial : State := mkState JNull.

Inductive Effect : Type :=
  | setBackendStatus (v : JsVal)
  | request (r : Request).

Definition update (st : State) (e : Effect) : State :=
  match e with
  | setBackendStatus v => mkState v
  | request _ => st
  end.

Definition run (st : State) (effects : list Effect) : State :=
  fold_left update effects st.

Definition requests (effects : list Effect) : list Request :=
  flat_map (fun e => match e with request r => [r] | _ => [] end) effects.

(** The effect of [useEffect]:
    [checkHealth().then((result) => setBackendStatus(result.success ? result.data : null))]. *)
Definition onMount (PROD : bool) (backend : Backend) : list Effect * Completion unit :=
  match Api.checkHealth PROD backend with
  | (sent, Throw e) => (map request sent, Throw e)
  | (sent, Normal result) =>
      match prop result "success" with
      | Throw e => (map request sent, Throw e)
      | Normal success =>
          if truthy success then
            match prop result "data" with
            | Throw e => (map request sent, Throw e)
            | Normal data => (map request sent ++ [setBackendStatus data], Normal tt)
            end
          else (map request sent ++ [setBackendStatus JNull], Normal tt)
      end
  end.

(** [{backendStatus && ( ... Backend Online ... )}] *)
Definition showsBackendOnline (st : State) : bool := truthy (backendStatus st).

End HomePage.

(** ** More sample uploads *)

Module UploadSamples.

Definition sample_pdf : File :=
  mkFile "notes.pdf" "application/pdf" ["%"%byte; "P"%byte; "D"%byte; "F"%byte].

(** A reader that always delivers a data URL with the type of the file. *)
Definition embedding_reader (f : File) : option string :=
  Some ("data:" ++ file_type f ++ ";base64,iVBORw==")%string.

(** The Register page with an iris image chosen and its preview loaded. *)
Definition with_iris_preview : RegisterPage.State :=
  RegisterPage.mkState None (Some Samples.sample_image) None
    (Some "data:image/png;base64,iVBORw==") None false JNull.

End UploadSamples.

(** * Properties of the client *)

(** ** services/api.js: every call settles with a result object *)

Module ApiFacts.

Import Api Samples.

Lemma truthy_js_or_fallback v fallback :
  fallback <> EmptyString -> truthy (js_or v (JStr fallback)) = true.
Proof.
  intros Hne. unfold js_or. destruct (truthy v) eqn:Hv; [done |].
  simpl. destruct (String.eqb_spec fallback EmptyString); [contradiction | done].
Qed.

Lemma first_truthy_truthy error fallback :
  fallback <> EmptyString -> truthy (first_truthy error fallback) = true.
Proof.
  intros Hne. unfold first_truthy, js_or at 1.
  destruct (truthy (detail_of error)) eqn:Hd; [done |].
  by apply truthy_js_or_fallback.
Qed.

Lemma truthy_string_nonempty v :
  is_string v = true -> truthy v = true -> exists s, v = JStr s /\ s <> EmptyString.
Proof.
  destruct v; try discriminate. intros _ Ht. exists s. split; [done |].
  intros ->. discriminate.
Qed.

Lemma error_text_first_truthy error fallback :
  error_text (JObj error) fallback = Normal (first_truthy error fallback).
Proof.
  unfold error_text, first_truthy, detail_of, js_or. simpl.
  by destruct (truthy (prop_opt _ _)).
Qed.

Lemma registerFile_settles PROD backend file iris fingerprint :
  let req := mkRequest POST (API_BASE_URL PROD ++ "/register")
               [("file", form_value file); ("iris", form_value iris);
                ("fingerprint", form_value fingerprint)] in
  registerFile PROD backend file iris fingerprint =
    ([req],
     match backend req with
     | Resolved response => Normal (success_result (lookup_prop "data" response))
     | Rejected error => Normal (failure_result (first_truthy error "Registration failed"))
     end).
Proof.
  intros req. unfold registerFile, post. fold req.
  destruct (backend req) as [response | error]; simpl; [done |].
  by rewrite error_text_first_truthy.
Qed.

Lemma accessFile_settles PROD backend encryptedFile iris fingerprint :
  let req := mkRequest POST (API_BASE_URL PROD ++ "/access")
               [("encrypted_file", form_value encryptedFile); ("iris", form_value iris);
                ("fingerprint", form_value fingerprint)] in
  accessFile PROD backend encryptedFile iris fingerprint =
    ([req],
     match backend req with
     | Resolved response => Normal (success_result (lookup_prop "data" response))
     | Rejected error => Normal (failure_result (first_truthy error "Access denied"))
     end).
Proof.
  intros req. unfold accessFile, post. fold req.
  destruct (backend req) as [response | error]; simpl; [done |].
  by rewrite error_text_first_truthy.
Qed.

Lemma failure_text_or_not error fallback :
  fallback <> EmptyString ->
  text_or_skipped (detail_of error) = true ->
  text_or_skipped (lookup_prop "message" error) = true ->
  exists s, first_truthy error fallback = JStr s /\ s <> EmptyString.
Proof.
  intros Hne Hd Hm. apply truthy_string_nonempty.
  - unfold first_truthy, js_or, text_or_skipped in *.
    destruct (truthy (detail_of error)).
    + by rewrite orb_false_r in Hd.
    + destruct (truthy (lookup_prop "message" error)); [| done].
      by rewrite orb_false_r in Hm.
  - by apply first_truthy_truthy.
Qed.

Lemma reported_settles fallback backend req v :
  fallback <> EmptyString ->
  reported fallback (backend req) v ->
  settles fallback backend ([req], Normal v).
Proof.
  intros Hne Hrep. exists req, v. split; [done |]. split; [done |].
  unfold reported in Hrep. destruct (backend req) as [response | error] eqn:Hb.
  - subst v. simpl. split; [by eexists |]. split; [discriminate |].
    intros error Herr. discriminate.
  - subst v. simpl. split; [by eexists |]. split.
    + intros _. by apply first_truthy_truthy.
    + intros error' [= <-] Hd Hm. by apply failure_text_or_not.
Qed.

Example registerFile_accepted :
  registerFile false accepting (Some sample_document) (Some sample_image)
    (Some sample_image)
  = ([mkRequest POST "/api/register"
        [("file", FormFile sample_document); ("iris", FormFile sample_image);
         ("fingerprint", FormFile sample_image)]],
     Normal (JObj [("success", JBool true);
                   ("data", JObj [("message", JStr "File encrypted");
                                  ("encrypted_file", JStr "report.enc")])])).
Proof. reflexivity. Qed.

Example accessFile_offline :
  accessFile true network_down None (Some sample_image) (Some sample_image)
  = ([mkRequest POST "http://localhost:8000/access"
        [("encrypted_file", FormText "null"); ("iris", FormFile sample_image);
         ("fingerprint", FormFile sample_image)]],
     Normal (JObj [("success", JBool false); ("error", JStr "Network Error")])).
Proof. reflexivity. Qed.

Example accessFile_empty_error :
  (accessFile false (fun _ => Rejected []) None None None).2
  = Normal (JObj [("success", JBool false); ("error", JStr "Access denied")]).
Proof. reflexivity. Qed.

(** C8 (as amended): for every input and every way the server settles the
    request, [registerFile] and [accessFile] send one request and fulfil
    (they never reject) with an object whose [success] is a boolean; on
    failure its [error] is the first truthy value among the server's
    [detail], the error's [message] and the fallback ('Registration
    failed', 'Access denied'), so it is never empty, and it is a
    non-empty string whenever [detail] and [message] are each a string or
    a value that [||] skips. *)
Theorem api_calls_settle PROD backend file iris fingerprint :
  settles "Registration failed" backend
    (registerFile PROD backend file iris fingerprint) /\
  settles "Access denied" backend
    (accessFile PROD backend file iris fingerprint).
Proof.
  split.
  - rewrite registerFile_settles.
    destruct (backend _) eqn:Hb; apply reported_settles; try done;
      unfold reported; by rewrite Hb.
  - rewrite accessFile_settles.
    destruct (backend _) eqn:Hb; apply reported_settles; try done;
      unfold reported; by rewrite Hb.
Qed.

(** With the network down both calls report the message of the error. *)
Lemma api_calls_settle_offline :
  (exists v, (registerFile false network_down None None None).2 = Normal v /\
             prop_opt v "success" = JBool false /\
             exists s, prop_opt v "error" = JStr s /\ s <> EmptyString) /\
  (exists v, (accessFile false network_down None None None).2 = Normal v /\
             prop_opt v "success" = JBool false /\
             exists s, prop_opt v "error" = JStr s /\ s <> EmptyString).
Proof.
  destruct (api_calls_settle false network_down None None None)
    as [(req1 & v1 & Hout1 & Hrep1 & _ & _ & Htext1)
        (req2 & v2 & Hout2 & Hrep2 & _ & _ & Htext2)].
  split.
  - exists v1. split; [by rewrite Hout1 |]. split.
    + unfold reported, network_down in Hrep1. by subst v1.
    + by apply (Htext1 [("message", JStr "Network Error")]).
  - exists v2. split; [by rewrite Hout2 |]. split.
    + unfold reported, network_down in Hrep2. by subst v2.
    + by apply (Htext2 [("message", JStr "Network Error")]).
Defined.

(** C8 (as stated) fails: when the server rejects the form with a list
    under [detail], [accessFile] hands that list back under [error], which
    is then no string. *)
Lemma accessFile_error_not_text :
  exists v,
    (accessFile false validation_error
       (Some sample_document) (Some sample_image) (Some sample_image)).2 = Normal v /\
    prop_opt v "success" = JBool false /\
    is_string (prop_opt v "error") = false /\
    ~ textual_result v.
Proof.
  eexists. split; [reflexivity |]. split; [reflexivity |]. split; [reflexivity |].
  intros (b & Hb & Htext). simpl in Hb. injection Hb as <-.
  destruct (Htext eq_refl) as (s & Hs & _). discriminate.
Qed.

End ApiFacts.

(** ** The pages: guards and clearing *)

Module PageFacts.

Import Samples.

Lemma handleRegister_guard PROD backend (st : RegisterPage.State) :
  RegisterPage.file st = None \/ RegisterPage.iris st = None
    \/ RegisterPage.fingerprint st = None ->
  RegisterPage.refused st (RegisterPage.handleRegister PROD backend st).
Proof.
  intros Hmissing.
  assert (RegisterPage.handleRegister PROD backend st
          = ([RegisterPage.setResult RegisterPage.upload_all_files], Normal tt)) as ->.
  { unfold RegisterPage.handleRegister.
    destruct Hmissing as [-> | [-> | ->]]; simpl; [done | |].
    - by rewrite orb_true_r.
    - by rewrite orb_true_r. }
  by repeat split.
Qed.

Lemma handleDecrypt_guard PROD backend (st : DecryptPage.State) :
  DecryptPage.encryptedFile st = None \/ DecryptPage.iris st = None
    \/ DecryptPage.fingerprint st = None ->
  DecryptPage.refused st (DecryptPage.handleDecrypt PROD backend st).
Proof.
  intros Hmissing.
  assert (DecryptPage.handleDecrypt PROD backend st
          = ([DecryptPage.setResult DecryptPage.upload_all_files], Normal tt)) as ->.
  { unfold DecryptPage.handleDecrypt.
    destruct Hmissing as [-> | [-> | ->]]; simpl; [done | |].
    - by rewrite orb_true_r.
    - by rewrite orb_true_r. }
  by repeat split.
Qed.

Example handleRegister_accepted :
  RegisterPage.handleRegister false accepting ready_to_register
  = ([RegisterPage.setLoading true; RegisterPage.setResult JNull;
      RegisterPage.request
        (mkRequest POST "/api/register"
           [("file", FormFile sample_document); ("iris", FormFile sample_image);
            ("fingerprint", FormFile sample_image)]);
      RegisterPage.setLoading false;
      RegisterPage.setResult
        (JObj [("success", JBool true);
               ("data", JObj [("message", JStr "File encrypted");
                              ("encrypted_file", JStr "report.enc")])]);
      RegisterPage.setTimeout
        [RegisterPage.setFile None; RegisterPage.setIris None;
         RegisterPage.setFingerprint None; RegisterPage.setIrisPreview None;
         RegisterPage.setFpPreview None] 3000],
     Normal tt).
Proof. reflexivity. Qed.

(** C9: when [handleRegister] (or [handleDecrypt]) runs with any of its
    three required inputs still [null], it only calls [setResult]: no
    request is sent, [loading] keeps its value (so it stays [false]), and
    the result becomes a failure with the message 'Please upload all
    required files'. *)
Theorem missing_input_guard PROD backend :
  (forall st : RegisterPage.State,
     RegisterPage.file st = None \/ RegisterPage.iris st = None
       \/ RegisterPage.fingerprint st = None ->
     RegisterPage.refused st (RegisterPage.handleRegister PROD backend st)) /\
  (forall st : DecryptPage.State,
     DecryptPage.encryptedFile st = None \/ DecryptPage.iris st = None
       \/ DecryptPage.fingerprint st = None ->
     DecryptPage.refused st (DecryptPage.handleDecrypt PROD backend st)).
Proof.
  split; intros st Hmissing.
  - by apply handleRegister_guard.
  - by apply handleDecrypt_guard.
Qed.

(** On the freshly mounted pages, and with only the iris chosen. *)
Lemma missing_input_guard_fresh_pages :
  (RegisterPage.loading
     (RegisterPage.run RegisterPage.initial
        (RegisterPage.handleRegister false Samples.network_down RegisterPage.initial).1)
   = false /\
   RegisterPage.refused RegisterPage.initial
     (RegisterPage.handleRegister false Samples.network_down RegisterPage.initial)) /\
  DecryptPage.refused
    (DecryptPage.mkState None (Some Samples.sample_image) None None None false JNull)
    (DecryptPage.handleDecrypt false Samples.network_down
       (DecryptPage.mkState None (Some Samples.sample_image) None None None false JNull)).
Proof.
  destruct (missing_input_guard false Samples.network_down) as [Hreg Hdec].
  split; [split |].
  - destruct (Hreg RegisterPage.initial) as (_ & _ & _ & Hloading & _);
      [left; reflexivity | exact (Hloading eq_refl)].
  - apply Hreg. left. reflexivity.
  - apply Hdec. left. reflexivity.
Defined.

(** C10: after [handleClear] on the Register page, or
    [handleNewDecryption] on the Decrypt page, the file, the iris, the
    fingerprint, both previews and the result are all [null], whatever
    the state was. *)
Theorem clear_resets_form :
  (forall st : RegisterPage.State,
     let st' := RegisterPage.run st RegisterPage.handleClear in
     RegisterPage.file st' = None /\ RegisterPage.iris st' = None /\
     RegisterPage.fingerprint st' = None /\ RegisterPage.irisPreview st' = None /\
     RegisterPage.fpPreview st' = None /\ RegisterPage.result st' = JNull) /\
  (forall st : DecryptPage.State,
     let st' := DecryptPage.run st DecryptPage.handleNewDecryption in
     DecryptPage.encryptedFile st' = None /\ DecryptPage.iris st' = None /\
     DecryptPage.fingerprint st' = None /\ DecryptPage.irisPreview st' = None /\
     DecryptPage.fpPreview st' = None /\ DecryptPage.result st' = JNull).
Proof.
  split; intros st; simpl; by repeat split.
Qed.

End PageFacts.

(** * Properties of the core model

    [Register] and [Access] on the modelled components, and what the
    Decrypt page shows once the API layer has answered an attempt. *)

Module CoreFacts.

Import Core.

Section Pipeline.

Context `{Components}.
Variable cfg : LimiterConfig.

(** ** The encryption engine *)

Lemma decrypt_encrypt plaintext key fresh :
  decrypt (encrypt plaintext key fresh) key = inr plaintext.
Proof. unfold decrypt, encrypt. simpl. by rewrite open_seal. Qed.

Lemma decrypt_encrypt_wrong_key plaintext key key' fresh :
  key' <> key -> decrypt (encrypt plaintext key fresh) key' = inl AccessDenied.
Proof. intros Hne. unfold decrypt, encrypt. simpl. by rewrite open_wrong_key. Qed.

Lemma decrypt_encrypt_only plaintext plaintext' key key' fresh :
  decrypt (encrypt plaintext key fresh) key' = inr plaintext' ->
  plaintext' = plaintext.
Proof.
  destruct (decide (key' = key)) as [-> | Hne].
  - rewrite decrypt_encrypt. congruence.
  - by rewrite decrypt_encrypt_wrong_key.
Qed.

(** ** The two operations *)

Lemma Register_accepted fileBytes irisImage fingerprintImage fresh c w :
  Register fileBytes irisImage fingerprintImage fresh = inr (c, w) ->
  exists di df,
    extract irisImage IrisModality = Some di /\
    extract fingerprintImage FingerprintModality = Some df /\
    genuine di df = true /\
    c = encrypt fileBytes (derive di df) fresh /\
    w = render di df.
Proof.
  unfold Register.
  destruct (extract irisImage IrisModality) as [di |]; [| done].
  destruct (extract fingerprintImage FingerprintModality) as [df |]; [| done].
  destruct (genuine di df) eqn:Hg; [| done].
  intros [= <- <-]. by exists di, df.
Qed.

Lemma Access_read store now c irisImage fingerprintImage di df :
  extract irisImage IrisModality = Some di ->
  extract fingerprintImage FingerprintModality = Some df ->
  Access cfg store now c irisImage fingerprintImage =
    match checkAllowed store (identityKey di df c) now with
    | Some limited => (inl limited, store)
    | None =>
        if genuine di df then
          match decrypt c (derive di df) with
          | inr plaintext => (inr plaintext, recordSuccess store (identityKey di df c))
          | inl e => (inl e, recordFailure cfg store (identityKey di df c) now)
          end
        else (inl InvalidBiometric, recordFailure cfg store (identityKey di df c) now)
    end.
Proof. intros Hi Hf. unfold Access. by rewrite Hi, Hf. Qed.

Lemma Access_unreadable store now c irisImage fingerprintImage :
  attempt_identity c irisImage fingerprintImage = None ->
  Access cfg store now c irisImage fingerprintImage = (inl InvalidImage, store).
Proof.
  unfold attempt_identity, Access.
  destruct (extract irisImage IrisModality); [| done].
  by destruct (extract fingerprintImage FingerprintModality).
Qed.

(** A successful [Access] on a container that the engine wrote returns
    the bytes that were encrypted, whoever presents the images. *)
Lemma Access_granted_bytes fileBytes key fresh (store store' : gmap N AttemptRecord)
    now irisImage fingerprintImage plaintext :
  Access cfg store now (encrypt fileBytes key fresh) irisImage fingerprintImage
    = (inr plaintext, store') ->
  plaintext = fileBytes.
Proof.
  intros Hacc.
  destruct (attempt_identity (encrypt fileBytes key fresh) irisImage fingerprintImage)
    as [id |] eqn:Hid.
  - unfold attempt_identity in Hid.
    destruct (extract irisImage IrisModality) as [di |] eqn:Hi; [| done].
    destruct (extract fingerprintImage FingerprintModality) as [df |] eqn:Hf; [| done].
    rewrite (Access_read _ _ _ _ _ di df Hi Hf) in Hacc.
    destruct (checkAllowed _ _ _); [done |].
    destruct (genuine di df); [| done].
    destruct (decrypt _ (derive di df)) as [e | p] eqn:Hdec; [done |].
    injection Hacc as <- _. by apply decrypt_encrypt_only in Hdec.
  - by rewrite Access_unreadable in Hacc.
Qed.

(** What the Decrypt page does with the answer of the API layer to an
    attempt, when its three inputs are chosen. *)
Lemma handleDecrypt_respond wording status message granted PROD outcome
    (st : DecryptPage.State) :
  DecryptForm.submitDisabled st = false ->
  let ran :=
    DecryptPage.handleDecrypt PROD
      (fun _ => respond wording status message granted outcome) st in
  ran.2 = Normal tt /\
  DecryptPage.loading (DecryptPage.run st ran.1) = false /\
  DecryptPage.result (DecryptPage.run st ran.1)
  = match outcome with
    | inl e =>
        Api.failure_result
          (js_or (JStr (presented wording e)) (js_or (JStr (message e)) (JStr "Access denied")))
    | inr plaintext => Api.success_result (granted plaintext)
    end.
Proof.
  intros Hready ran. subst ran.
  unfold DecryptForm.submitDisabled in Hready.
  unfold DecryptPage.handleDecrypt.
  destruct (DecryptPage.loading st); [done |].
  destruct (DecryptPage.absent (DecryptPage.encryptedFile st)); [done |].
  destruct (DecryptPage.absent (DecryptPage.iris st)); [done |].
  destruct (DecryptPage.absent (DecryptPage.fingerprint st)); [done |].
  rewrite ApiFacts.accessFile_settles. cbv zeta.
  by destruct outcome.
Qed.




End Pipeline.

(** ** The scenario of the specification, run on the stand-in components *)

Import Demo.





End CoreFacts.

(** * Properties of the rest of the client *)

(** ** services/api.js: download links, health and statistics *)

Module ApiMoreFacts.

Import Api Samples.

Lemma append_cancel_l (p a b : string) : (p ++ a = p ++ b)%string -> a = b.
Proof.
  induction p as [| c p IH]; simpl; [done |].
  intros [= Heq]. by apply IH.
Qed.

Lemma substring_after_prefix (p s : string) :
  substring (String.length p) (String.length s) (p ++ s)%string = s.
Proof.
  induction p as [| c p IH]; simpl; [| exact IH].
  induction s as [| c s IH]; simpl; [done |].
  destruct s; simpl in *; by rewrite ?IH.
Qed.

(** The link of a decrypted file is the base URL of the build
    ([http://localhost:8000] in production, [/api] otherwise), then
    [/download/], then the file name as it is, with nothing escaped: the
    link is as long as its three parts, the name can be read back from
    it, and two names never share a link. *)
Theorem getDownloadUrl_keeps_name PROD :
  (forall filename,
     getDownloadUrl PROD filename
     = ((if PROD then "http://localhost:8000/download/" else "/api/download/")
        ++ filename)%string /\
     String.length (getDownloadUrl PROD filename)
     = ((if PROD then 31 else 14) + String.length filename)%nat /\
     substring (if PROD then 31 else 14) (String.length filename)
               (getDownloadUrl PROD filename)
     = filename) /\
  (forall filename filename',
     getDownloadUrl PROD filename = getDownloadUrl PROD filename' ->
     filename = filename').
Proof.
  split.
  - intros filename. split; [by destruct PROD |]. split.
    + destruct PROD; unfold getDownloadUrl; simpl; reflexivity.
    + destruct PROD.
      * exact (substring_after_prefix "http://localhost:8000/download/" filename).
      * exact (substring_after_prefix "/api/download/" filename).
  - intros filename filename' Heq. unfold getDownloadUrl in Heq.
    apply append_cancel_l in Heq. by apply append_cancel_l in Heq.
Qed.

Lemma getDownloadUrl_keeps_name_report :
  getDownloadUrl false "report.pdf" = "/api/download/report.pdf" /\
  getDownloadUrl true "../report.pdf" = "http://localhost:8000/download/../report.pdf" /\
  (getDownloadUrl false "report.pdf" = getDownloadUrl false "../report.pdf" -> False).
Proof.
  destruct (getDownloadUrl_keeps_name false) as [Hfalse Hinj].
  destruct (getDownloadUrl_keeps_name true) as [Htrue _].
  split; [exact (proj1 (Hfalse "report.pdf")) |].
  split; [exact (proj1 (Htrue "../report.pdf")) |].
  intros Heq. apply Hinj in Heq. discriminate.
Defined.

Lemma checkHealth_settles PROD backend :
  checkHealth PROD backend
  = ([mkRequest GET (API_BASE_URL PROD ++ "/health") []],
     Normal
       match backend (mkRequest GET (API_BASE_URL PROD ++ "/health") []) with
       | Resolved response => success_result (lookup_prop "data" response)
       | Rejected _ => failure_result (JStr "Backend is offline")
       end).
Proof. unfold checkHealth, get. by destruct (backend _). Qed.

Lemma getStats_settles PROD backend :
  getStats PROD backend
  = ([mkRequest GET (API_BASE_URL PROD ++ "/stats") []],
     Normal
       match backend (mkRequest GET (API_BASE_URL PROD ++ "/stats") []) with
       | Resolved response => success_result (lookup_prop "data" response)
       | Rejected error => failure_result (lookup_prop "message" error)
       end).
Proof. unfold getStats, get. by destruct (backend _). Qed.

(** [registerFile] and [accessFile] have no guard of their own: for every
    input, [null] included, each sends exactly one POST, to [/register]
    and [/access] under the base URL, with three parts named in this
    order; a missing file travels as the text 'null'. *)
Theorem api_calls_always_post PROD backend file iris fingerprint :
  (registerFile PROD backend file iris fingerprint).1
  = [mkRequest POST (API_BASE_URL PROD ++ "/register")
       [("file", form_value file); ("iris", form_value iris);
        ("fingerprint", form_value fingerprint)]] /\
  (accessFile PROD backend file iris fingerprint).1
  = [mkRequest POST (API_BASE_URL PROD ++ "/access")
       [("encrypted_file", form_value file); ("iris", form_value iris);
        ("fingerprint", form_value fingerprint)]] /\
  (registerFile PROD backend None None None).1
  = [mkRequest POST (API_BASE_URL PROD ++ "/register")
       [("file", FormText "null"); ("iris", FormText "null");
        ("fingerprint", FormText "null")]].
Proof.
  by rewrite !ApiFacts.registerFile_settles, ApiFacts.accessFile_settles.
Qed.

(** [checkHealth] and [getStats] never reject and send one GET each.
    Both report a resolved request as a success that carries the body of
    the answer.  [checkHealth] reports every rejected request as a
    failure with the error 'Backend is offline', whatever the error was;
    [getStats] reports a rejected request as a failure with the message
    of the error as it is, with no fallback, so the [error] of its
    result is [undefined] when the error has no message. *)
Theorem health_and_stats_settle PROD backend :
  (exists v, checkHealth PROD backend
             = ([mkRequest GET (API_BASE_URL PROD ++ "/health") []], Normal v) /\
     (forall response,
        backend (mkRequest GET (API_BASE_URL PROD ++ "/health") []) = Resolved response ->
        prop_opt v "success" = JBool true /\
        prop_opt v "data" = lookup_prop "data" response) /\
     (forall error,
        backend (mkRequest GET (API_BASE_URL PROD ++ "/health") []) = Rejected error ->
        prop_opt v "success" = JBool false /\
        prop_opt v "error" = JStr "Backend is offline")) /\
  (exists v, getStats PROD backend
             = ([mkRequest GET (API_BASE_URL PROD ++ "/stats") []], Normal v) /\
     (forall response,
        backend (mkRequest GET (API_BASE_URL PROD ++ "/stats") []) = Resolved response ->
        prop_opt v "success" = JBool true /\
        prop_opt v "data" = lookup_prop "data" response) /\
     (forall error,
        backend (mkRequest GET (API_BASE_URL PROD ++ "/stats") []) = Rejected error ->
        prop_opt v "success" = JBool false /\
        prop_opt v "error" = lookup_prop "message" error /\
        (lookup_prop "message" error = JUndefined -> truthy (prop_opt v "error") = false))).
Proof.
  split.
  - rewrite checkHealth_settles. eexists. split; [reflexivity |].
    destruct (backend _) as [response' | error']; simpl.
    + split; [by intros response [= <-] | intros error Herr; discriminate].
    + split; [intros response Hres; discriminate | by intros error _].
  - rewrite getStats_settles. eexists. split; [reflexivity |].
    destruct (backend _) as [response' | error'] eqn:Hb; simpl.
    + split; [by intros response [= <-] | intros error Herr; discriminate].
    + split; [intros response Hres; discriminate |].
      intros error [= <-]. split; [done |]. split; [done |]. by intros ->.
Qed.

Lemma health_and_stats_settle_bare_error :
  (exists v, (checkHealth false (fun _ => Rejected [])).2 = Normal v /\
             prop_opt v "success" = JBool false /\
             prop_opt v "error" = JStr "Backend is offline") /\
  (exists v, (getStats false (fun _ => Rejected [])).2 = Normal v /\
             prop_opt v "success" = JBool false /\
             truthy (prop_opt v "error") = false).
Proof.
  destruct (health_and_stats_settle false (fun _ => Rejected []))
    as ((h & Hh & _ & Hoffline) & (v & Hv & _ & Hbare)).
  split.
  - exists h. split; [by rewrite Hh |]. exact (Hoffline [] eq_refl).
  - exists v. split; [by rewrite Hv |].
    destruct (Hbare [] eq_refl) as (Hsuccess & _ & Hfalsy).
    split; [exact Hsuccess | exact (Hfalsy eq_refl)].
Defined.

End ApiMoreFacts.

(** ** pages/Home.jsx: the backend badge *)

Module HomeFacts.

Import HomePage.

(** Mounting the Home page sends one GET to [/health] and never throws;
    afterwards the 'Backend Online' badge shows exactly when the request
    resolved with a truthy body.  A rejected request, and an answer with
    an empty or missing body, both leave the badge hidden. *)
Theorem backend_badge PROD backend st :
  let req := mkRequest GET (Api.API_BASE_URL PROD ++ "/health") [] in
  let ran := onMount PROD backend in
  ran.2 = Normal tt /\
  requests ran.1 = [req] /\
  showsBackendOnline (run st ran.1)
  = match backend req with
    | Resolved response => truthy (lookup_prop "data" response)
    | Rejected _ => false
    end.
Proof.
  intros req ran. subst ran. unfold onMount.
  rewrite ApiMoreFacts.checkHealth_settles.
  fold req. by destruct (backend req).
Qed.

End HomeFacts.

(** ** pages/Register.jsx: a whole attempt, the timer and the buttons *)

Module RegisterFormFacts.

Import RegisterPage RegisterForm Samples.

Lemma handleRegister_present PROD backend (st : State) f i p :
  file st = Some f -> iris st = Some i -> fingerprint st = Some p ->
  handleRegister PROD backend st
  = let req := mkRequest POST (Api.API_BASE_URL PROD ++ "/register")
                 [("file", FormFile f); ("iris", FormFile i);
                  ("fingerprint", FormFile p)] in
    match backend req with
    | Resolved response =>
        ([setLoading true; setResult JNull; request req; setLoading false;
          setResult (Api.success_result (lookup_prop "data" response));
          setTimeout clear_inputs 3000], Normal tt)
    | Rejected error =>
        ([setLoading true; setResult JNull; request req; setLoading false;
          setResult (Api.failure_result (Api.first_truthy error "Registration failed"))],
         Normal tt)
    end.
Proof.
  intros Hf Hi Hp. unfold handleRegister. rewrite Hf, Hi, Hp. simpl.
  rewrite ApiFacts.registerFile_settles. simpl.
  by destruct (backend _).
Qed.

(** With its three inputs chosen, [handleRegister] always runs to its
    end, whatever the server does: it first shows the spinner and hides
    the old result, sends exactly one request with the three files, and
    finishes with [loading] back to [false] and the result of
    [registerFile] on display.  The chosen files and previews are still
    in place at that point. *)
Theorem register_attempt_completes PROD backend (st : State) f i p :
  file st = Some f -> iris st = Some i -> fingerprint st = Some p ->
  let req := mkRequest POST (Api.API_BASE_URL PROD ++ "/register")
               [("file", FormFile f); ("iris", FormFile i);
                ("fingerprint", FormFile p)] in
  let ran := handleRegister PROD backend st in
  ran.2 = Normal tt /\
  take 2 ran.1 = [setLoading true; setResult JNull] /\
  requests ran.1 = [req] /\
  loading (run st ran.1) = false /\
  Api.reported "Registration failed" (backend req) (result (run st ran.1)) /\
  file (run st ran.1) = Some f /\ iris (run st ran.1) = Some i /\
  fingerprint (run st ran.1) = Some p /\
  irisPreview (run st ran.1) = irisPreview st /\
  fpPreview (run st ran.1) = fpPreview st.
Proof.
  intros Hf Hi Hp req ran. subst ran.
  rewrite (handleRegister_present PROD backend st f i p Hf Hi Hp). fold req.
  unfold Api.reported.
  destruct (backend req); simpl; by repeat split.
Qed.

Lemma register_attempt_completes_offline :
  loading
    (run ready_to_register (handleRegister false network_down ready_to_register).1)
  = false /\
  prop_opt
    (result
       (run ready_to_register (handleRegister false network_down ready_to_register).1))
    "error"
  = JStr "Network Error".
Proof.
  destruct (register_attempt_completes false network_down ready_to_register
              sample_document sample_image sample_image eq_refl eq_refl eq_refl)
    as (_ & _ & _ & Hloading & Hresult & _).
  split; [exact Hloading |].
  hnf in Hresult. by rewrite Hresult.
Defined.

(** A registration arms a timer exactly when the request resolved, with
    a delay of 3000 ms.  When that timer fires it empties the file, the
    iris, the fingerprint and both previews of the page as it is then,
    files chosen in the meantime included, and leaves the result and
    [loading] alone; with the inputs empty both buttons are disabled
    while the result is still on display. *)
Theorem success_timer_clears_form PROD backend (st : State) f i p :
  file st = Some f -> iris st = Some i -> fingerprint st = Some p ->
  timers (handleRegister PROD backend st).1
  = match backend (mkRequest POST (Api.API_BASE_URL PROD ++ "/register")
                     [("file", FormFile f); ("iris", FormFile i);
                      ("fingerprint", FormFile p)]) with
    | Resolved _ => [(clear_inputs, 3000%Z)]
    | Rejected _ => []
    end /\
  forall later : State,
    let st' := run later clear_inputs in
    file st' = None /\ iris st' = None /\ fingerprint st' = None /\
    irisPreview st' = None /\ fpPreview st' = None /\
    result st' = result later /\ loading st' = loading later /\
    clearDisabled st' = true /\ submitDisabled st' = true.
Proof.
  intros Hf Hi Hp.
  rewrite (handleRegister_present PROD backend st f i p Hf Hi Hp).
  cbv zeta. split; [by destruct (backend _) |].
  intros later. simpl. unfold clearDisabled, submitDisabled. simpl.
  repeat split; by rewrite ?orb_true_r.
Qed.

Lemma success_timer_clears_form_accepted :
  timers (handleRegister false accepting ready_to_register).1
  = [(clear_inputs, 3000%Z)] /\
  file (run ready_to_register clear_inputs) = None /\
  clearDisabled (run ready_to_register clear_inputs) = true.
Proof.
  destruct (success_timer_clears_form false accepting ready_to_register
              sample_document sample_image sample_image eq_refl eq_refl eq_refl)
    as [Htimers Hfires].
  split; [exact Htimers |].
  destruct (Hfires ready_to_register) as (Hfile & _ & _ & _ & _ & _ & _ & Hclear & _).
  split; [exact Hfile | exact Hclear].
Defined.

(** The card that the Register page draws after a click.  With an input
    missing it is the 'Error' card with 'Please upload all required
    files'.  After a rejected request it is the 'Error' card with the
    error value of [registerFile] when React can draw that value; when
    the value is an object or holds one (a list of validation errors, for
    one) the render is refused.  After a resolved request whose body is an
    object it is the 'Success!' card, naming the encrypted file when the
    body has one, and again the render is refused when the message or the
    name is an object or holds one.  When the body is [null] or missing,
    reading [result.data.message] throws a TypeError while the page
    renders. *)
Theorem register_card_after_attempt PROD backend (st : State) :
  (file st = None \/ iris st = None \/ fingerprint st = None ->
   resultCard (result (run st (handleRegister PROD backend st).1))
   = Normal (Block (mkCard "error" "Error"
                      (JStr "Please upload all required files") Blank))) /\
  (forall f i p,
     file st = Some f -> iris st = Some i -> fingerprint st = Some p ->
     let shown := resultCard (result (run st (handleRegister PROD backend st).1)) in
     match backend (mkRequest POST (Api.API_BASE_URL PROD ++ "/register")
                      [("file", FormFile f); ("iris", FormFile i);
                       ("fingerprint", FormFile p)]) with
     | Rejected error =>
         shown
         = if valid_child (Api.first_truthy error "Registration failed")
           then Normal (Block (mkCard "error" "Error"
                                 (Api.first_truthy error "Registration failed") Blank))
           else Throw InvalidChild
     | Resolved response =>
         match lookup_prop "data" response with
         | JUndefined | JNull => shown = Throw TypeError
         | JObj body =>
             shown
             = if valid_child (lookup_prop "message" body)
                  && valid_child (lookup_prop "encrypted_file" body)
               then
                 Normal (Block (mkCard "success" "Success!"
                   (lookup_prop "message" body)
                   (child_and (lookup_prop "encrypted_file" body)
                      (Block (lookup_prop "encrypted_file" body)))))
               else Throw InvalidChild
         | _ => shown = Normal (Block (mkCard "success" "Success!" JUndefined Blank))
         end
     end).
Proof.
  split.
  - intros Hmissing.
    destruct (PageFacts.handleRegister_guard PROD backend st Hmissing) as [-> _].
    reflexivity.
  - intros f i p Hf Hi Hp shown. subst shown.
    rewrite (handleRegister_present PROD backend st f i p Hf Hi Hp). cbv zeta.
    destruct (backend _) as [response | error]; simpl; [| done].
    by destruct (lookup_prop "data" response).
Qed.

Lemma register_card_after_attempt_samples :
  resultCard (result (run initial (handleRegister false accepting initial).1))
  = Normal (Block (mkCard "error" "Error"
                     (JStr "Please upload all required files") Blank)) /\
  resultCard
    (result (run ready_to_register
               (handleRegister false accepting ready_to_register).1))
  = Normal (Block (mkCard "success" "Success!" (JStr "File encrypted")
                     (Block (JStr "report.enc")))) /\
  resultCard
    (result (run ready_to_register
               (handleRegister false validation_error ready_to_register).1))
  = Throw InvalidChild /\
  resultCard
    (result (run ready_to_register
               (handleRegister false answering_null ready_to_register).1))
  = Throw TypeError.
Proof.
  split; [| split; [| split]].
  - destruct (register_card_after_attempt false accepting initial) as [Hguard _].
    apply Hguard. left. reflexivity.
  - destruct (register_card_after_attempt false accepting ready_to_register)
      as [_ Hshown].
    exact (Hshown sample_document sample_image sample_image eq_refl eq_refl eq_refl).
  - destruct (register_card_after_attempt false validation_error ready_to_register)
      as [_ Hshown].
    exact (Hshown sample_document sample_image sample_image eq_refl eq_refl eq_refl).
  - destruct (register_card_after_attempt false answering_null ready_to_register)
      as [_ Hshown].
    exact (Hshown sample_document sample_image sample_image eq_refl eq_refl eq_refl).
Defined.

End RegisterFormFacts.

(** ** pages/Decrypt.jsx: a whole attempt and the card it ends with *)

Module DecryptFormFacts.

Import DecryptPage DecryptForm Samples.

Lemma handleDecrypt_present PROD backend (st : State) f i p :
  encryptedFile st = Some f -> iris st = Some i -> fingerprint st = Some p ->
  handleDecrypt PROD backend st
  = let req := mkRequest POST (Api.API_BASE_URL PROD ++ "/access")
                 [("encrypted_file", FormFile f); ("iris", FormFile i);
                  ("fingerprint", FormFile p)] in
    ([setLoading true; setResult JNull; request req; setLoading false;
      setResult
        match backend req with
        | Resolved response => Api.success_result (lookup_prop "data" response)
        | Rejected error =>
            Api.failure_result (Api.first_truthy error "Access denied")
        end],
     Normal tt).
Proof.
  intros Hf Hi Hp. unfold handleDecrypt. rewrite Hf, Hi, Hp. simpl.
  rewrite ApiFacts.accessFile_settles. simpl.
  by destruct (backend _).
Qed.

(** With its three inputs chosen, [handleDecrypt] always runs to its
    end: spinner on and old result hidden first, exactly one request with
    the three files, then [loading] back to [false] and the result of
    [accessFile] on display.  Nothing is cleared, after a denial or after
    a success: the encrypted file, both images and both previews stay as
    they were, so the attempt can be repeated as it is. *)
Theorem decrypt_attempt_completes PROD backend (st : State) f i p :
  encryptedFile st = Some f -> iris st = Some i -> fingerprint st = Some p ->
  let req := mkRequest POST (Api.API_BASE_URL PROD ++ "/access")
               [("encrypted_file", FormFile f); ("iris", FormFile i);
                ("fingerprint", FormFile p)] in
  let ran := handleDecrypt PROD backend st in
  ran.2 = Normal tt /\
  take 2 ran.1 = [setLoading true; setResult JNull] /\
  requests ran.1 = [req] /\
  loading (run st ran.1) = false /\
  Api.reported "Access denied" (backend req) (result (run st ran.1)) /\
  encryptedFile (run st ran.1) = Some f /\ iris (run st ran.1) = Some i /\
  fingerprint (run st ran.1) = Some p /\
  irisPreview (run st ran.1) = irisPreview st /\
  fpPreview (run st ran.1) = fpPreview st /\
  submitDisabled (run st ran.1) = false.
Proof.
  intros Hf Hi Hp req ran. subst ran.
  rewrite (handleDecrypt_present PROD backend st f i p Hf Hi Hp). fold req.
  unfold Api.reported, submitDisabled. simpl. rewrite Hf, Hi, Hp.
  destruct (backend req); simpl; by repeat split.
Qed.

Lemma decrypt_attempt_completes_offline :
  loading
    (run ready_to_decrypt (handleDecrypt false network_down ready_to_decrypt).1)
  = false /\
  submitDisabled
    (run ready_to_decrypt (handleDecrypt false network_down ready_to_decrypt).1)
  = false.
Proof.
  destruct (decrypt_attempt_completes false network_down ready_to_decrypt
              sample_document sample_image sample_image eq_refl eq_refl eq_refl)
    as (_ & _ & _ & Hloading & _ & _ & _ & _ & _ & _ & Hsubmit).
  split; [exact Hloading | exact Hsubmit].
Defined.



(** Choosing the three files on the Decrypt page, in the order of the
    boxes, enables both buttons whenever nothing is loading, whatever was
    chosen before and whether or not the previews load; the result of an
    earlier attempt stays on display while the new files are chosen. *)
Theorem choosing_enables_decrypt readAsDataURL (st : State)
    e erest i irest p prest :
  loading st = false ->
  let st' :=
    settle
      (settle
         (settle st (onEncryptedFileChange readAsDataURL (e :: erest)))
         (onIrisChange readAsDataURL (i :: irest)))
      (onFingerprintChange readAsDataURL (p :: prest)) in
  encryptedFile st' = Some e /\ iris st' = Some i /\ fingerprint st' = Some p /\
  submitDisabled st' = false /\ clearDisabled st' = false /\
  result st' = result st.
Proof.
  intros Hloading st'. subst st'.
  unfold settle, onEncryptedFileChange, onIrisChange, onFingerprintChange,
    FileInput.handleFileChange, submitDisabled, clearDisabled. simpl.
  destruct (String.prefix "image/" (file_type i)), (String.prefix "image/" (file_type p)),
    (readAsDataURL i), (readAsDataURL p); simpl; by rewrite Hloading.
Qed.

Lemma choosing_enables_decrypt_fresh :
  submitDisabled
    (settle
       (settle
          (settle initial (onEncryptedFileChange (fun _ => None) [sample_document]))
          (onIrisChange (fun _ => None) [sample_image]))
       (onFingerprintChange (fun _ => None) [sample_image]))
  = false.
Proof.
  destruct (choosing_enables_decrypt (fun _ => None) initial sample_document []
              sample_image [] sample_image [] eq_refl)
    as (_ & _ & _ & Hsubmit & _).
  exact Hsubmit.
Defined.

End DecryptFormFacts.

(** ** Both pages: the buttons, and choosing files *)

Module FormFacts.

Import Samples UploadSamples.

(** An enabled Register or Decrypt button means that nothing is loading
    and all three inputs are chosen, so a click never ends in the
    'Please upload all required files' branch: the handler shows the
    spinner and sends its one request.  While a request is under way the
    button is disabled. *)
Theorem enabled_button_sends PROD backend :
  (forall st : RegisterPage.State,
     (RegisterPage.loading st = true -> RegisterForm.submitDisabled st = true) /\
     (RegisterForm.submitDisabled st = false ->
      exists req,
        RegisterPage.requests (RegisterPage.handleRegister PROD backend st).1 = [req] /\
        take 1 (RegisterPage.handleRegister PROD backend st).1
        = [RegisterPage.setLoading true])) /\
  (forall st : DecryptPage.State,
     (DecryptPage.loading st = true -> DecryptForm.submitDisabled st = true) /\
     (DecryptForm.submitDisabled st = false ->
      exists req,
        DecryptPage.requests (DecryptPage.handleDecrypt PROD backend st).1 = [req] /\
        take 1 (DecryptPage.handleDecrypt PROD backend st).1
        = [DecryptPage.setLoading true])).
Proof.
  split; intros st; (split; [intros Hl |]).
  - unfold RegisterForm.submitDisabled. by rewrite Hl.
  - unfold RegisterForm.submitDisabled. intros Henabled.
    destruct (RegisterPage.file st) as [f |] eqn:Hf;
      [| by rewrite orb_true_r in Henabled].
    destruct (RegisterPage.iris st) as [i |] eqn:Hi;
      [| by rewrite orb_true_r in Henabled].
    destruct (RegisterPage.fingerprint st) as [p |] eqn:Hp;
      [| by rewrite orb_true_r in Henabled].
    rewrite (RegisterFormFacts.handleRegister_present PROD backend st f i p Hf Hi Hp).
    cbv zeta. eexists. by destruct (backend _).
  - unfold DecryptForm.submitDisabled. by rewrite Hl.
  - unfold DecryptForm.submitDisabled. intros Henabled.
    destruct (DecryptPage.encryptedFile st) as [f |] eqn:Hf;
      [| by rewrite orb_true_r in Henabled].
    destruct (DecryptPage.iris st) as [i |] eqn:Hi;
      [| by rewrite orb_true_r in Henabled].
    destruct (DecryptPage.fingerprint st) as [p |] eqn:Hp;
      [| by rewrite orb_true_r in Henabled].
    rewrite (DecryptFormFacts.handleDecrypt_present PROD backend st f i p Hf Hi Hp).
    cbv zeta. by eexists.
Qed.

Lemma enabled_button_sends_ready :
  exists req,
    RegisterPage.requests
      (RegisterPage.handleRegister false accepting ready_to_register).1 = [req].
Proof.
  destruct (enabled_button_sends false accepting) as [Hreg _].
  destruct (Hreg ready_to_register) as [_ Hsends].
  destruct (Hsends eq_refl) as (req & Hreq & _).
  by exists req.
Defined.

(** Choosing files on the Register page.  A cancelled dialog (no file)
    changes nothing.  Otherwise only the first file counts; it replaces
    the file of its own slot and touches no other slot.  The preview of
    the iris or fingerprint slot is replaced only when the file's type
    starts with [image/] and the reader delivers; in every other case it
    keeps its old value, and it is never set back to [null]. *)
Theorem choosing_files_register readAsDataURL (st : RegisterPage.State) :
  RegisterForm.settle st (RegisterForm.onFileChange readAsDataURL []) = st /\
  RegisterForm.settle st (RegisterForm.onIrisChange readAsDataURL []) = st /\
  RegisterForm.settle st (RegisterForm.onFingerprintChange readAsDataURL []) = st /\
  forall f rest,
    RegisterForm.settle st (RegisterForm.onFileChange readAsDataURL (f :: rest))
    = RegisterPage.mkState (Some f) (RegisterPage.iris st)
        (RegisterPage.fingerprint st) (RegisterPage.irisPreview st)
        (RegisterPage.fpPreview st) (RegisterPage.loading st)
        (RegisterPage.result st) /\
    RegisterForm.settle st (RegisterForm.onIrisChange readAsDataURL (f :: rest))
    = RegisterPage.mkState (RegisterPage.file st) (Some f)
        (RegisterPage.fingerprint st)
        (if String.prefix "image/" (file_type f) then
           match readAsDataURL f with
           | Some url => Some url
           | None => RegisterPage.irisPreview st
           end
         else RegisterPage.irisPreview st)
        (RegisterPage.fpPreview st) (RegisterPage.loading st)
        (RegisterPage.result st) /\
    RegisterForm.settle st (RegisterForm.onFingerprintChange readAsDataURL (f :: rest))
    = RegisterPage.mkState (RegisterPage.file st) (RegisterPage.iris st) (Some f)
        (RegisterPage.irisPreview st)
        (if String.prefix "image/" (file_type f) then
           match readAsDataURL f with
           | Some url => Some url
           | None => RegisterPage.fpPreview st
           end
         else RegisterPage.fpPreview st)
        (RegisterPage.loading st) (RegisterPage.result st).
Proof.
  split; [done |]. split; [done |]. split; [done |].
  intros f rest.
  unfold RegisterForm.settle, RegisterForm.onFileChange, RegisterForm.onIrisChange,
    RegisterForm.onFingerprintChange, FileInput.handleFileChange. simpl.
  split; [done |].
  destruct (String.prefix "image/" (file_type f)); [| done].
  by destruct (readAsDataURL f).
Qed.

Lemma choosing_files_register_iris readAsDataURL (st : RegisterPage.State) f rest :
  let st' :=
    RegisterForm.settle st (RegisterForm.onIrisChange readAsDataURL (f :: rest)) in
  RegisterPage.iris st' = Some f /\
  RegisterPage.irisPreview st'
  = if String.prefix "image/" (file_type f) then
      match readAsDataURL f with
      | Some url => Some url
      | None => RegisterPage.irisPreview st
      end
    else RegisterPage.irisPreview st.
Proof.
  unfold RegisterForm.settle, RegisterForm.onIrisChange, FileInput.handleFileChange.
  simpl. destruct (String.prefix "image/" (file_type f)); [| done].
  by destruct (readAsDataURL f).
Qed.

(** The same page shows a stale picture: when an image with its preview
    is in the iris slot and a file that is no image (or one the reader
    cannot read) is chosen next, the slot holds the new file while the
    upload box goes on showing the preview of the old one. *)
Theorem stale_preview_is_shown readAsDataURL (st : RegisterPage.State)
    f rest old label :
  RegisterPage.irisPreview st = Some old -> old <> EmptyString ->
  String.prefix "image/" (file_type f) = false \/ readAsDataURL f = None ->
  let st' :=
    RegisterForm.settle st (RegisterForm.onIrisChange readAsDataURL (f :: rest)) in
  RegisterPage.iris st' = Some f /\
  FileUploadBox.content label (RegisterPage.iris st') (RegisterPage.irisPreview st')
  = FileUploadBox.ShowsPreview old.
Proof.
  intros Hold Hne Hstale st'. subst st'.
  destruct (choosing_files_register_iris readAsDataURL st f rest) as [Hiris Hpreview].
  split; [exact Hiris |].
  rewrite Hpreview.
  assert ((if String.prefix "image/" (file_type f) then
             match readAsDataURL f with
             | Some url => Some url
             | None => RegisterPage.irisPreview st
             end
           else RegisterPage.irisPreview st) = Some old) as ->.
  { destruct Hstale as [-> | ->]; [done |].
    by destruct (String.prefix "image/" (file_type f)). }
  unfold FileUploadBox.content.
  destruct (String.eqb_spec old EmptyString); [contradiction | done].
Qed.

Lemma stale_preview_is_shown_pdf :
  RegisterPage.iris
    (RegisterForm.settle with_iris_preview
       (RegisterForm.onIrisChange embedding_reader [sample_pdf; sample_image]))
  = Some sample_pdf /\
  FileUploadBox.content "Iris Image" (Some sample_pdf)
    (RegisterPage.irisPreview
       (RegisterForm.settle with_iris_preview
          (RegisterForm.onIrisChange embedding_reader [sample_pdf; sample_image])))
  = FileUploadBox.ShowsPreview "data:image/png;base64,iVBORw==".
Proof.
  destruct (stale_preview_is_shown embedding_reader with_iris_preview sample_pdf
              [sample_image] "data:image/png;base64,iVBORw==" "Iris Image"
              eq_refl ltac:(discriminate) (or_introl eq_refl)) as [Hiris Hshown].
  split; [exact Hiris | exact Hshown].
Defined.

End FormFacts.

(** ** components/FileUpload.jsx: drops, sizes and ids *)

Module UploadFacts.

Import FileUploadBox Samples UploadSamples.

(** After a drop the box is never left in its drag-over look, and the
    page hears of the drop only when it carried a file: an empty or
    missing list changes nothing on the page, and of several dropped
    files only the first one is taken, exactly as if it had been chosen
    alone.  Dragging over the box, or away from it, never reaches the
    page, and an empty change passed on by the box changes nothing. *)
Theorem drop_reaches_page readAsDataURL (st : DecryptPage.State) dragOver files :
  dragOver_after dragOver (handleDrop files) = false /\
  dragOver_after dragOver handleDragOver = true /\
  dragOver_after dragOver handleDragLeave = false /\
  changes handleDragOver = [] /\ changes handleDragLeave = [] /\
  UploadWiring.deliverDecrypt (DecryptForm.onIrisChange readAsDataURL) st
    (handleFileChange []) = st /\
  UploadWiring.deliverDecrypt (DecryptForm.onIrisChange readAsDataURL) st
    (handleDrop files)
  = match files with
    | Some (first :: rest) =>
        DecryptForm.settle st (DecryptForm.onIrisChange readAsDataURL [first])
    | _ => st
    end /\
  UploadWiring.deliverDecrypt (DecryptForm.onEncryptedFileChange readAsDataURL) st
    (handleDrop files)
  = match files with
    | Some (first :: rest) =>
        DecryptPage.mkState (Some first) (DecryptPage.iris st)
          (DecryptPage.fingerprint st) (DecryptPage.irisPreview st)
          (DecryptPage.fpPreview st) (DecryptPage.loading st)
          (DecryptPage.result st)
    | _ => st
    end.
Proof.
  repeat split; try done; by destruct files as [[| first rest] |].
Qed.

(** The size under the file name is the size in KB rounded to the
    nearest hundredth (upwards on a tie): it is off by at most half a
    hundredth, it reads 0.00 exactly for files of at most five bytes, and
    a file of [k] whole KB reads [k.00]. *)
Theorem shown_size_is_rounded (size : N) :
  (kb_hundredths size * 1024 <= size * 100 + 512 < (kb_hundredths size + 1) * 1024)%N /\
  (kb_hundredths size = 0%N <-> (size <= 5)%N) /\
  forall k : N,
    kb_hundredths (1024 * k) = (100 * k)%N /\
    toFixed2 (kb_hundredths (1024 * k))
    = (NilZero.string_of_uint (N.to_uint k) ++ ".00")%string.
Proof.
  unfold kb_hundredths. split; [| split].
  - pose proof (N.div_mod' (size * 100 + 512) 1024) as Hdiv.
    pose proof (N.mod_lt (size * 100 + 512) 1024 ltac:(lia)) as Hmod.
    set (q := ((size * 100 + 512) / 1024)%N) in *.
    set (r := ((size * 100 + 512) mod 1024)%N) in *. lia.
  - rewrite N.div_small_iff by lia. lia.
  - intros k.
    assert (((1024 * k * 100 + 512) / 1024)%N = (100 * k)%N) as Hk.
    { replace (1024 * k * 100 + 512)%N with (512 + (100 * k) * 1024)%N by lia.
      rewrite N.div_add by lia. by rewrite N.div_small by lia. }
    split; [exact Hk |].
    rewrite Hk. unfold toFixed2.
    replace (100 * k / 100)%N with k by (rewrite N.mul_comm, N.div_mul; lia).
    replace ((100 * k) mod 100)%N with 0%N
      by (rewrite N.mul_comm, N.Div0.mod_mul; lia).
    replace ((100 * k) mod 10)%N with 0%N
      by (replace (100 * k)%N with (10 * k * 10)%N by lia;
          rewrite N.Div0.mod_mul; lia).
    reflexivity.
Qed.

Lemma shown_size_is_rounded_small :
  toFixed2 (kb_hundredths 5) = "0.00" /\
  toFixed2 (kb_hundredths (1024 * 3)) = "3.00" /\
  kb_hundredths 6 <> 0%N.
Proof.
  destruct (shown_size_is_rounded 6) as (_ & Hzero & _).
  destruct (shown_size_is_rounded 0) as (_ & _ & Hwhole).
  split; [reflexivity |]. split; [exact (proj2 (Hwhole 3%N)) |].
  intros H0. apply Hzero in H0. lia.
Defined.

Lemma lower_char_facts (c : ascii) :
  let c' := if is_upper c then ascii_of_N (N_of_ascii c + 32) else c in
  is_space c' = is_space c /\ is_upper c' = false /\
  (if is_upper c' then ascii_of_N (N_of_ascii c' + 32) else c') = c'.
Proof.
  destruct c as [[] [] [] [] [] [] [] []]; by vm_compute.
Qed.

Lemma replace_spaces_no_space in_run s :
  all_chars (fun c => negb (is_space c)) (replace_spaces in_run s) = true.
Proof.
  revert in_run. induction s as [| c s IH]; intros in_run; simpl; [done |].
  destruct (is_space c) eqn:Hc.
  - destruct in_run; simpl; by rewrite IH.
  - simpl. by rewrite Hc, IH.
Qed.

Lemma toLowerCase_plain s :
  all_chars (fun c => negb (is_space c)) s = true ->
  all_chars plain_char (toLowerCase s) = true.
Proof.
  induction s as [| c s IH]; simpl; [done |].
  intros [Hc Hs]%andb_prop. rewrite (IH Hs), andb_true_r.
  destruct (lower_char_facts c) as (Hspace & Hupper & _).
  unfold plain_char. by rewrite Hspace, Hupper, Hc.
Qed.

Lemma plain_is_fixed in_run s :
  all_chars plain_char s = true ->
  replace_spaces in_run s = s /\ toLowerCase s = s.
Proof.
  revert in_run. induction s as [| c s IH]; intros in_run; simpl; [done |].
  intros [Hc Hs]%andb_prop. unfold plain_char in Hc.
  apply andb_prop in Hc as [Hspace Hupper].
  apply negb_true_iff in Hspace, Hupper. rewrite Hspace, Hupper.
  destruct (IH false Hs) as [-> ->]. done.
Qed.

Lemma replace_spaces_toLowerCase in_run s :
  replace_spaces in_run (toLowerCase s) = toLowerCase (replace_spaces in_run s).
Proof.
  revert in_run. induction s as [| c s IH]; intros in_run; simpl; [done |].
  destruct (lower_char_facts c) as (-> & _ & _).
  destruct (is_space c); [destruct in_run |]; simpl; by rewrite IH.
Qed.

Lemma toLowerCase_twice s : toLowerCase (toLowerCase s) = toLowerCase s.
Proof.
  induction s as [| c s IH]; simpl; [done |].
  destruct (lower_char_facts c) as (_ & _ & ->). by rewrite IH.
Qed.

Lemma replace_spaces_length in_run s :
  String.length (replace_spaces in_run s) <= String.length s.
Proof.
  revert in_run. induction s as [| c s IH]; intros in_run; simpl; [done |].
  destruct (is_space c); [destruct in_run |]; simpl;
    [pose proof (IH true) | pose proof (IH true) | pose proof (IH false)]; lia.
Qed.

Lemma toLowerCase_length s : String.length (toLowerCase s) = String.length s.
Proof. induction s as [| c s IH]; simpl; [done | by rewrite IH]. Qed.

(** The id of the file input, for a label of ASCII characters: after
    the prefix it holds no white space and no upper-case letter and is no
    longer than the label; making an id of it again gives the same id;
    and labels that differ only in the case of their letters get the same
    id. *)
Theorem inputId_is_a_slug (label : string) :
  ascii_only label = true ->
  exists slug,
    inputId label = ("file-upload-" ++ slug)%string /\
    all_chars plain_char slug = true /\
    String.length slug <= String.length label /\
    inputId slug = inputId label /\
    inputId (toLowerCase label) = inputId label.
Proof.
  intros _. exists (toLowerCase (replace_spaces false label)).
  split; [done |].
  assert (all_chars plain_char (toLowerCase (replace_spaces false label)) = true)
    as Hplain by apply toLowerCase_plain, replace_spaces_no_space.
  split; [exact Hplain |]. split.
  - rewrite toLowerCase_length. apply replace_spaces_length.
  - unfold inputId. split.
    + destruct (plain_is_fixed false _ Hplain) as [-> ->]. done.
    + by rewrite replace_spaces_toLowerCase, toLowerCase_twice.
Qed.

Lemma inputId_is_a_slug_labels :
  inputId "Encrypted File (.enc)" = "file-upload-encrypted-file-(.enc)" /\
  inputId "IRIS   image" = inputId "Iris Image" /\
  exists slug,
    inputId "Iris Image" = ("file-upload-" ++ slug)%string /\
    all_chars plain_char slug = true.
Proof.
  split; [reflexivity |]. split; [reflexivity |].
  destruct (inputId_is_a_slug "Iris Image" eq_refl) as (slug & Hid & Hplain & _).
  by exists slug.
Defined.

End UploadFacts.
